(** * telegram-movie-bot: a shallow embedding of [bot.py]

    The bot is a request router: Telegram updates come in, the TMDb
    catalog and a PostgreSQL table [favorites] are consulted, and text
    messages with button grids go out.  The development models

    - the Python values the handlers inspect (JSON as [response.json()]
      decodes it), with the builtins the source applies to them and the
      exceptions those raise ([Py]);
    - the objects and calls of the messaging library ([Telegram]);
    - the table [favorites] with the column types and the uniqueness
      constraint that [setup_database] declares ([Store]);
    - the catalog primitive [tmdb_request] over an explicit HTTP exchange,
      the keyboards, and the handlers [start], [add_favorite_by_title],
      [view_favorites], [handle_text_message], [handle_menu_button],
      [handle_genre_button] and [handle_location], as computations over a
      world that holds the per-user [user_data], the table, and the calls
      made so far, in order.

    Conventions.  A string is a sequence of 8-bit characters; case
    conversion and the whitespace test are the ASCII ones.  A call to the
    messaging library is recorded and taken to succeed.  Logging is left
    out.  [show_movie_details] and [save_favorite_movie] are not modelled:
    the first formats a rating as a fixed-point float, the second parses
    an integer out of the button token, and no property below is about
    them.  The literal texts are the ones of the source file, byte for
    byte. *)

From Stdlib Require Import ZArith String Ascii List Bool Lia.
From stdpp Require Import base option list gmap strings pretty sorting.
Import ListNotations.
Local Open Scope Z_scope.
Local Open Scope string_scope.

(** ** Python values and exceptions *)

Module Py.

(** A value as [json] decoding produces it, or as a handler stores it.  A
    float is kept with its [repr]: the program never computes with one, it
    can only test it for truth or print it, and both are read off the
    shortest round-trip rendering that [str()] and an f-string emit. *)
#[warnings="-register-all"]
Inductive value : Type :=
| VNone
| VBool (b : bool)
| VInt (z : Z)
| VFloat (repr : string)
| VStr (s : string)
| VList (l : list value)
| VDict (d : list (string * value)).

(** A [dict] with string keys keeps insertion order. *)
Definition dict : Type := list (string * value).

(** The exceptions of [requests]: those of the transport, which mean that
    no response arrived, the one [raise_for_status] raises, and the one
    [response.json()] raises (a [RequestException] since requests 2.27). *)
Inductive transport_error : Type :=
| ConnectionError
| Timeout
| TooManyRedirects
| ChunkedEncodingError.

Inductive request_error : Type :=
| Transport (err : transport_error)
| HTTPError (status : Z)
| JSONDecodeError.

Inductive db_error : Type :=
| OperationalError
| NumericValueOutOfRange
| StringDataRightTruncation.

Inductive exn : Type :=
| KeyError (key : string)
| IndexError
| TypeError
| AttributeError
| ValueError
| RequestException (e : request_error)
| Psycopg2Error (e : db_error).

Inductive result (A : Type) : Type :=
| Returns (a : A)
| Raises (e : exn).
Arguments Returns {A} a.
Arguments Raises {A} e.

Definition rbind {A B} (r : result A) (k : A -> result B) : result B :=
  match r with
  | Returns a => k a
  | Raises e => Raises e
  end.

(** [bool(v)] *)
Definition truthy (v : value) : bool :=
  match v with
  | VNone => false
  | VBool b => b
  | VInt z => negb (z =? 0)%Z
  | VFloat r => negb (String.eqb r "0.0" || String.eqb r "-0.0")
  | VStr s => negb (String.eqb s "")
  | VList l => match l with [] => false | _ => true end
  | VDict d => match d with [] => false | _ => true end
  end.

(** [v == s] for a string literal [s] *)
Definition eq_str (v : value) (s : string) : bool :=
  match v with
  | VStr s' => String.eqb s' s
  | _ => false
  end.

(** *** dict operations *)

Fixpoint lookup (k : string) (d : dict) : option value :=
  match d with
  | [] => None
  | (k', v) :: d' => if String.eqb k' k then Some v else lookup k d'
  end.

(** [d[k] = v]: an existing key keeps its position. *)
Fixpoint setitem (k : string) (v : value) (d : dict) : dict :=
  match d with
  | [] => [(k, v)]
  | (k', v') :: d' =>
      if String.eqb k' k then (k', v) :: d' else (k', v') :: setitem k v d'
  end.

(** [d.update(other)] *)
Definition update (d other : dict) : dict :=
  fold_left (fun acc kv => setitem (fst kv) (snd kv) acc) other d.

(** [del d[k]].  A dict holds one binding per key; on the list that stands
    for it, a lookup reads the first binding of a key, so removal leaves
    none behind. *)
Fixpoint delitem (k : string) (d : dict) : dict :=
  match d with
  | [] => []
  | (k', v') :: d' =>
      if String.eqb k' k then delitem k d' else (k', v') :: delitem k d'
  end.

(** [d.pop(k, default)] *)
Definition pop (k : string) (dflt : value) (d : dict) : value * dict :=
  match lookup k d with
  | Some v => (v, delitem k d)
  | None => (dflt, d)
  end.

Definition keys (d : dict) : list string := map fst d.

(** [v.get(k, default)]; only a dict has the method. *)
Definition get (v : value) (k : string) (dflt : value) : result value :=
  match v with
  | VDict d => Returns (match lookup k d with Some x => x | None => dflt end)
  | _ => Raises AttributeError
  end.

(** [v[k]] for a string key [k]: a missing key is a [KeyError]; a list or
    a string takes integer indices only, and the scalars are not
    subscriptable at all. *)
Definition getitem (v : value) (k : string) : result value :=
  match v with
  | VDict d =>
      match lookup k d with
      | Some x => Returns x
      | None => Raises (KeyError k)
      end
  | _ => Raises TypeError
  end.

(** *** sequences *)

Fixpoint prefix (n : nat) (s : string) : string :=
  match n, s with
  | S n', String c s' => String c (prefix n' s')
  | _, _ => ""
  end.

(** [v[:n]].  A dict rejects the slice as a key ([TypeError] up to Python
    3.11, where a slice is unhashable). *)
Definition slice_to (n : nat) (v : value) : result value :=
  match v with
  | VStr s => Returns (VStr (prefix n s))
  | VList l => Returns (VList (firstn n l))
  | _ => Raises TypeError
  end.

(** [v[0]] *)
Definition first (v : value) : result value :=
  match v with
  | VList (x :: _) => Returns x
  | VList [] => Raises IndexError
  | VStr (String c _) => Returns (VStr (String c ""))
  | VStr "" => Raises IndexError
  | VDict _ => Raises (KeyError "0")
  | _ => Raises TypeError
  end.

Fixpoint chars (s : string) : list value :=
  match s with
  | "" => []
  | String c s' => VStr (String c "") :: chars s'
  end.

(** The items a [for] loop or a comprehension visits. *)
Definition iter (v : value) : result (list value) :=
  match v with
  | VList l => Returns l
  | VStr s => Returns (chars s)
  | VDict d => Returns (map (fun kv => VStr (fst kv)) d)
  | _ => Raises TypeError
  end.

(** A loop body run over the items in order; the first exception ends the
    loop. *)
Fixpoint for_each {A B} (f : A -> result B) (l : list A) : result (list B) :=
  match l with
  | [] => Returns []
  | x :: l' =>
      rbind (f x) (fun y => rbind (for_each f l') (fun ys => Returns (y :: ys)))
  end.

(** *** strings *)

Definition is_upper (c : ascii) : bool :=
  ((65 <=? nat_of_ascii c) && (nat_of_ascii c <=? 90))%nat.
Definition is_lower (c : ascii) : bool :=
  ((97 <=? nat_of_ascii c) && (nat_of_ascii c <=? 122))%nat.
Definition to_lower (c : ascii) : ascii :=
  if is_upper c then ascii_of_nat (nat_of_ascii c + 32) else c.
Definition to_upper (c : ascii) : ascii :=
  if is_lower c then ascii_of_nat (nat_of_ascii c - 32) else c.

Fixpoint map_chars (f : ascii -> ascii) (s : string) : string :=
  match s with
  | "" => ""
  | String c s' => String (f c) (map_chars f s')
  end.

(** [s.lower()] *)
Definition lower (s : string) : string := map_chars to_lower s.

(** [s.capitalize()]: the first character upper case, the rest lower. *)
Definition capitalize (s : string) : string :=
  match s with
  | "" => ""
  | String c s' => String (to_upper c) (lower s')
  end.

(** The characters [str.split()] treats as separators. *)
Definition is_space (c : ascii) : bool :=
  let n := nat_of_ascii c in
  (((9 <=? n) && (n <=? 13)) || ((28 <=? n) && (n <=? 32)))%nat.

Fixpoint split_go (cur : option string) (s : string) : list string :=
  match s with
  | "" => match cur with Some w => [w] | None => [] end
  | String c s' =>
      if is_space c
      then match cur with
           | Some w => w :: split_go None s'
           | None => split_go None s'
           end
      else split_go (Some (match cur with Some w => w | None => "" end
                           ++ String c "")) s'
  end.

(** [s.split()]: the maximal runs of non-space characters. *)
Definition split (s : string) : list string := split_go None s.

(** [sep.join(l)] *)
Definition join (sep : string) (l : list string) : string :=
  String.concat sep l.

(** [s.split("_", 1)[1]]: what follows the first underscore. *)
Fixpoint after_underscore (s : string) : result string :=
  match s with
  | "" => Raises IndexError
  | String c s' => if Ascii.eqb c "_" then Returns s' else after_underscore s'
  end.

Fixpoint contains_char (c : ascii) (s : string) : bool :=
  match s with
  | "" => false
  | String c' s' => Ascii.eqb c' c || contains_char c s'
  end.

Definition dquote : ascii := "034"%char.

(** [needle in haystack] for two strings *)
Fixpoint starts_with (p s : string) : bool :=
  match p, s with
  | "", _ => true
  | String a p', String b s' => Ascii.eqb a b && starts_with p' s'
  | _, _ => false
  end.

Fixpoint substring (needle haystack : string) : bool :=
  starts_with needle haystack ||
  match haystack with
  | "" => false
  | String _ rest => substring needle rest
  end.

Definition hex_digit (n : nat) : ascii :=
  ascii_of_nat (if (n <? 10)%nat then 48 + n else 87 + n).

Definition repr_char (quote c : ascii) : string :=
  let n := nat_of_ascii c in
  if Ascii.eqb c quote || Ascii.eqb c "\" then String "\" (String c "")
  else if (n =? 9)%nat then "\t"
  else if (n =? 10)%nat then "\n"
  else if (n =? 13)%nat then "\r"
  else if ((n <? 32) || (n =? 127))%nat
       then "\x" ++ String (hex_digit (n / 16))
                       (String (hex_digit (n mod 16)) "")
  else String c "".

Fixpoint repr_chars (quote : ascii) (s : string) : string :=
  match s with
  | "" => ""
  | String c s' => repr_char quote c ++ repr_chars quote s'
  end.

(** [repr(s)]: single quotes unless the text has one and no double quote. *)
Definition repr_str (s : string) : string :=
  let quote : ascii :=
    if contains_char "'" s && negb (contains_char dquote s) then dquote
    else "'"%char in
  String quote (repr_chars quote s ++ String quote "").

(** [repr(v)] *)
Fixpoint repr (v : value) : string :=
  match v with
  | VNone => "None"
  | VBool true => "True"
  | VBool false => "False"
  | VInt z => pretty z
  | VFloat r => r
  | VStr s => repr_str s
  | VList l => "[" ++ join ", " (map repr l) ++ "]"
  | VDict d =>
      "{" ++ join ", " (map (fun '(k, x) => repr_str k ++ ": " ++ repr x) d)
          ++ "}"
  end.

(** [str(v)], which is what an f-string field [{v}] inserts. *)
Definition str (v : value) : string :=
  match v with
  | VStr s => s
  | _ => repr v
  end.

End Py.


(** ** Telegram objects and outbound calls *)

Module Telegram.

Record button : Type :=
  InlineKeyboardButton { text : string; callback_data : string }.

Record key : Type :=
  KeyboardButton { key_text : string; request_location : bool }.

Inductive markup : Type :=
| InlineKeyboardMarkup (keyboard : list (list button))
| ReplyKeyboardMarkup (keyboard : list (list key))
    (resize_keyboard one_time_keyboard : bool)
| ReplyKeyboardRemove.

(** What a handler asks of the outside, in the order it asks. *)
Inductive call : Type :=
| requests_get (url : string) (params : Py.dict)
| answer
| delete
| reply_text (message : string) (reply_markup : option markup)
    (parse_mode : option string)
| sleep (seconds : Z).

End Telegram.
Import Telegram.

(** ** The favorites table

    [setup_database] declares
    [favorites (id SERIAL PRIMARY KEY, user_id BIGINT NOT NULL,
                movie_id INTEGER NOT NULL, movie_title VARCHAR(255) NOT NULL,
                UNIQUE (user_id, movie_id))].
    No statement of the program reads [id], so a row is its other three
    columns. *)

Module Store.
Import Py.

Record row : Type := Row { user_id : Z; movie_id : Z; movie_title : string }.

Definition table : Type := list row.

Definition in_bigint (z : Z) : bool := ((- 2 ^ 63 <=? z) && (z <? 2 ^ 63))%Z.
Definition in_integer (z : Z) : bool := ((- 2 ^ 31 <=? z) && (z <? 2 ^ 31))%Z.

Fixpoint drop (n : nat) (s : string) : string :=
  match n, s with
  | S n', String _ s' => drop n' s'
  | _, _ => s
  end.

Fixpoint all_spaces (s : string) : bool :=
  match s with
  | "" => true
  | String c s' => Ascii.eqb c " " && all_spaces s'
  end.

(** The value stored when text is assigned to a [VARCHAR(n)] column.  The
    driver refuses a NUL character; the server refuses text longer than [n]
    unless the excess is spaces only, which it cuts off. *)
Definition varchar (n : nat) (s : string) : result string :=
  if contains_char "000" s then Raises ValueError
  else if (String.length s <=? n)%nat then Returns s
  else if all_spaces (drop n s) then Returns (prefix n s)
  else Raises (Psycopg2Error StringDataRightTruncation).

Definition same_pair (u m : Z) (r : row) : bool :=
  ((user_id r =? u) && (movie_id r =? m))%Z.

(** [INSERT INTO favorites (user_id, movie_id, movie_title) VALUES (u, m, title)
     ON CONFLICT (user_id, movie_id) DO NOTHING], with the statement's
    [rowcount]. *)
Definition insert_favorite (t : table) (u m : Z) (title : string)
  : result (Z * table) :=
  if negb (in_bigint u) || negb (in_integer m)
  then Raises (Psycopg2Error NumericValueOutOfRange)
  else rbind (varchar 255 title) (fun stored =>
         if existsb (same_pair u m) t then Returns (0%Z, t)
         else Returns (1%Z, (t ++ [Row u m stored])%list)).

(** Modelled from the spec: the order by which [ORDER BY movie_title]
    compares two titles.  It is the collation of the column, which the
    database fixes and the source does not name; the spec has the listing
    in "lexicographic ascending" order, so titles are compared character by
    character. *)
Definition title_le : relation string := String.le.

#[export] Instance title_le_dec : RelDecision title_le := String.le_dec.
#[export] Instance title_le_po : PartialOrder title_le := String.le_po.
#[export] Instance title_le_total : Total title_le := String.le_total.

(** [SELECT movie_title FROM favorites WHERE user_id = u
     ORDER BY movie_title] *)
Definition select_titles (t : table) (u : Z) : list string :=
  merge_sort title_le
    (map movie_title (List.filter (fun r => (user_id r =? u)%Z) t)).

Definition added (movie_title : string) : string :=
  "'" ++ movie_title ++ "' berhasil ditambahkan ke favorit!".
Definition already_there (movie_title : string) : string :=
  "'" ++ movie_title ++ "' sudah ada di favorit Anda.".
Definition connection_error : string := "Database connection error.".
Definition adding_failed : string := "Gagal menambahkan favorit.".

Inductive connection : Type := Connection.

(** A connection when the server is reachable ([up]); [None] when
    [psycopg2.connect] raises [OperationalError]. *)
Definition get_db_connection (up : bool) : option connection :=
  if up then Some Connection else None.

(** The flag and the text returned, and the table afterwards.  An exception
    of the statement leaves the table as it was: nothing is committed. *)
Definition add_favorite_to_db (up : bool) (t : table) (user_id movie_id : Z)
    (movie_title : string) : (bool * string) * table :=
  match get_db_connection up with
  | None => ((false, connection_error), t)
  | Some conn =>
      match insert_favorite t user_id movie_id movie_title with
      | Returns (rowcount, t') =>
          let was_inserted := (0 <? rowcount)%Z in
          ((was_inserted,
            if was_inserted then added movie_title
            else already_there movie_title), t')
      | Raises _ => ((false, adding_failed), t)
      end
  end.

Definition get_favorites_from_db (up : bool) (t : table) (user_id : Z)
  : list string :=
  match get_db_connection up with
  | None => []
  | Some conn => select_titles t user_id
  end.


(** How many rows the table holds for a (user, movie) pair. *)
Definition rows_for (t : table) (u m : Z) : nat :=
  length (List.filter (same_pair u m) t).

End Store.

(** ** The process and its surroundings *)

(** What [requests.get] meets: no response at all, or a response with a
    status code and a body, [None] when the body is not JSON. *)
Inductive exchange : Type :=
| NoResponse (err : Py.transport_error)
| Response (status_code : Z) (body : option Py.value).

(** What is fixed while updates are handled: the configuration read at
    import time, the genre table built at start-up, the catalog service, and
    whether the database accepts connections. *)
Record env : Type := Env {
  TMDB_API_KEY : option string;
  GENRES : Py.dict;
  catalog : string -> Py.dict -> exchange;
  database_up : bool
}.

(** What handlers change: [context.user_data] of each user, [context.args]
    of the update at hand, the table, and the calls made so far. *)
Record world : Type := World {
  user_data : gmap Z Py.dict;
  args : list string;
  favorites : Store.table;
  calls : list call
}.

Module Run.
Import Py.

(** A handler: a world transformer that returns or raises.  State changes
    made before an exception stay. *)
Definition M (A : Type) : Type := world -> result A * world.

Definition ret {A} (a : A) : M A := fun w => (Returns a, w).

Definition bind {A B} (c : M A) (k : A -> M B) : M B :=
  fun w =>
    match c w with
    | (Returns a, w') => k a w'
    | (Raises e, w') => (Raises e, w')
    end.

Definition lift {A} (r : result A) : M A := fun w => (r, w).

Definition try_except {A} (body : M A) (catches : exn -> bool)
    (handler : M A) : M A :=
  fun w =>
    match body w with
    | (Raises e, w') => if catches e then handler w' else (Raises e, w')
    | done => done
    end.

Definition record (c : call) (w : world) : world :=
  World (user_data w) (args w) (favorites w) (calls w ++ [c])%list.

Definition emit (c : call) : M unit := fun w => (Returns tt, record c w).

Definition set_args (l : list string) : M unit :=
  fun w => (Returns tt, World (user_data w) l (favorites w) (calls w)).

Definition get_args : M (list string) := fun w => (Returns (args w), w).

(** [context.user_data] is the dict of the update's user, empty at first. *)
Definition the_user_data (uid : Z) (w : world) : dict :=
  match user_data w !! uid with
  | Some d => d
  | None => []
  end.

Definition user_data_pop (uid : Z) (k : string) (dflt : value) : M value :=
  fun w =>
    let (v, d) := pop k dflt (the_user_data uid w) in
    (Returns v,
     World (<[uid := d]> (user_data w)) (args w) (favorites w) (calls w)).

Definition user_data_set (uid : Z) (k : string) (v : value) : M unit :=
  fun w =>
    (Returns tt,
     World (<[uid := setitem k v (the_user_data uid w)]> (user_data w))
       (args w) (favorites w) (calls w)).

End Run.
Import Run.

Declare Scope py_scope.
Delimit Scope py_scope with py.
Notation "x <- c ;; k" := (bind c (fun x => k))
  (at level 20, c at level 99, k at level 200, only parsing) : py_scope.
Notation "c ;; k" := (bind c (fun _ => k))
  (at level 100, k at level 200, only parsing, right associativity) : py_scope.
Local Open Scope py_scope.

(** ** Catalog client *)

Definition is_RequestException (e : Py.exn) : bool :=
  match e with
  | Py.RequestException _ => true
  | _ => false
  end.

Definition get_url (e : env) (url : string) (params : Py.dict)
  : M (Z * option Py.value) :=
  emit (requests_get url params) ;;
  match catalog e url params with
  | NoResponse err =>
      lift (Py.Raises (Py.RequestException (Py.Transport err)))
  | Response status_code body => ret (status_code, body)
  end.

Definition raise_for_status (response : Z * option Py.value)
  : Py.result unit :=
  let status_code := fst response in
  if ((400 <=? status_code) && (status_code <? 600))%Z
  then Py.Raises (Py.RequestException (Py.HTTPError status_code))
  else Py.Returns tt.

(** [response.json()] *)
Definition json (response : Z * option Py.value) : Py.result Py.value :=
  match snd response with
  | Some v => Py.Returns v
  | None => Py.Raises (Py.RequestException Py.JSONDecodeError)
  end.

Definition api_url (endpoint : string) : string :=
  "https://api.themoviedb.org/3/" ++ endpoint.

(** The query parameters of a request: the key and the language, then the
    caller's, when it passed any. *)
Definition base_params (api_key : string) (params : option Py.dict)
  : Py.dict :=
  let base_params :=
    [("api_key", Py.VStr api_key); ("language", Py.VStr "en-US")] in
  match params with
  | Some (kv :: more) => Py.update base_params (kv :: more)
  | _ => base_params
  end.

Definition tmdb_request (e : env) (endpoint : string)
    (params : option Py.dict) : M Py.value :=
  match TMDB_API_KEY e with
  | None | Some "" => ret (Py.VDict [])
  | Some api_key =>
      try_except
        (response <- get_url e (api_url endpoint)
                       (base_params api_key params) ;;
         lift (raise_for_status response) ;;
         lift (json response))
        is_RequestException
        (ret (Py.VDict []))
  end.

(** [k in v] *)
Definition contains (v : Py.value) (k : string) : Py.result bool :=
  match v with
  | Py.VDict d => Py.Returns (bool_decide (is_Some (Py.lookup k d)))
  | Py.VList l => Py.Returns (existsb (fun x => Py.eq_str x k) l)
  | Py.VStr s => Py.Returns (Py.substring k s)
  | _ => Py.Raises Py.TypeError
  end.

Definition lower_of (v : Py.value) : Py.result string :=
  match v with
  | Py.VStr s => Py.Returns (Py.lower s)
  | _ => Py.Raises Py.AttributeError
  end.

Definition load_genres (e : env) : M Py.dict :=
  data <- tmdb_request e "genre/movie/list" None ;;
  if Py.truthy data
  then
    has <- lift (contains data "genres") ;;
    if has : bool
    then
      genres <- lift (Py.rbind (Py.getitem data "genres") Py.iter) ;;
      entries <- lift (Py.for_each (fun genre =>
        Py.rbind (Py.getitem genre "name") (fun name =>
        Py.rbind (lower_of name) (fun key =>
        Py.rbind (Py.getitem genre "id") (fun id =>
        Py.Returns (key, id))))) genres) ;;
      ret (Py.update [] entries)
    else ret []
  else ret [].

(** ** Presentation layer *)

Definition menu_entry : list button :=
  [InlineKeyboardButton "ğŸ›ï¸ Tampilkan Menu Utama" "menu_menu"].

(** The button row of one movie, as the loop body of
    [create_movie_keyboard] builds it. *)
Definition movie_entry (callback_prefix : string) (movie : Py.value)
  : Py.result (list button) :=
  Py.rbind (Py.getitem movie "id") (fun movie_id =>
  Py.rbind (Py.getitem movie "title") (fun movie_title =>
  Py.rbind (Py.get movie "release_date" Py.VNone) (fun present =>
  Py.rbind
    (if Py.truthy present
     then Py.rbind (Py.get movie "release_date" (Py.VStr "Unknown"))
            (Py.slice_to 4)
     else Py.Returns (Py.VStr "N/A")) (fun release_year =>
  let display_name := Py.str movie_title ++ " (" ++ Py.str release_year ++ ")" in
  Py.Returns [InlineKeyboardButton display_name
                (callback_prefix ++ "_" ++ Py.str movie_id)])))).

Definition create_movie_keyboard (movies : Py.value)
    (callback_prefix : string) : Py.result markup :=
  Py.rbind (Py.rbind (Py.slice_to 5 movies) Py.iter) (fun shown =>
  Py.rbind (Py.for_each (movie_entry callback_prefix) shown) (fun keyboard =>
  Py.Returns (InlineKeyboardMarkup (keyboard ++ [menu_entry])%list))).

Definition create_main_menu : string * markup :=
  let start_message := "
ğŸ¥ **Selamat datang di Movie Search Bot!** ğŸ¿

Siap menjelajahi dunia film? Gunakan tombol di bawah untuk memulai:

- **Cari Film**: Temukan film berdasarkan judul.
- **Cari Aktor**: Lihat film populer dari aktor favorit.
- **Film Trending**: Lihat apa yang sedang populer saat ini.
- **Simpan Favorit**: Buat daftar tontonan pribadimu.

Klik tombol di bawah untuk beraksi!
    " in
  let keyboard :=
    [ [InlineKeyboardButton "ğŸ” Cari Film" "menu_search";
       InlineKeyboardButton "ğŸ­ Cari Aktor" "menu_actor"];
      [InlineKeyboardButton "ğŸ¬ Film Trending" "menu_trending";
       InlineKeyboardButton "ğŸ·ï¸ Genre Film" "menu_genres"];
      [InlineKeyboardButton "â­ Tambah Favorit" "menu_favorite";
       InlineKeyboardButton "ğŸ“œ List Favorit" "menu_favorites"];
      [InlineKeyboardButton "ğŸ« Cari Bioskop" "menu_cinema";
       InlineKeyboardButton "â“ Bantuan" "menu_help"] ] in
  (start_message, InlineKeyboardMarkup keyboard).

Definition create_error_keyboard : markup :=
  InlineKeyboardMarkup [[InlineKeyboardButton "ğŸ›ï¸ Kembali ke Menu" "menu_menu"]].

(** ** Handlers *)

Definition Markdown : option string := Some "Markdown".

Definition start : M unit :=
  let (start_message, reply_markup) := create_main_menu in
  emit (reply_text start_message (Some reply_markup) Markdown).

Definition add_favorite_by_title (e : env) : M unit :=
  context_args <- get_args ;;
  let query := Py.join " " context_args in
  if String.eqb query ""
  then emit (reply_text "âš ï¸ Masukkan judul film setelah perintah.
Contoh: `/favorite Inception`" (Some create_error_keyboard) None)
  else
    data <- tmdb_request e "search/movie" (Some [("query", Py.VStr query)]) ;;
    movies <- lift (Py.get data "results" (Py.VList [])) ;;
    if negb (Py.truthy movies)
    then emit (reply_text
            ("âŒ Tidak ada film yang ditemukan untuk '" ++ query ++ "'.")
            (Some create_error_keyboard) None)
    else
      reply_markup <- lift (create_movie_keyboard movies "save") ;;
      emit (reply_text
              "ğŸ¬ Pilih film yang ingin Anda simpan ke favorit:"
              (Some reply_markup) None).

Definition favorites_of (e : env) (user_id : Z) : M (list string) :=
  fun w =>
    (Py.Returns (Store.get_favorites_from_db (database_up e) (favorites w)
                   user_id), w).

Definition view_favorites (e : env) (user_id : Z) : M unit :=
  favorites_list <- favorites_of e user_id ;;
  match favorites_list with
  | [] => emit (reply_text
          "âŒ Anda belum memiliki film favorit. Tambahkan dengan perintah /favorite."
          (Some create_error_keyboard) None)
  | _ =>
      let message :=
        fold_left (fun message movie => message ++ ("- " ++ movie ++ "
")) favorites_list
          "â­ **Daftar Film Favorit Anda:**
" in
      emit (reply_text message (Some create_error_keyboard) Markdown)
  end.

(** The texts of the replies, as the f-strings of the handlers build them. *)
Definition actor_not_found (query_text : string) : string :=
  "âŒ Tidak ada aktor/aktris yang ditemukan untuk '" ++ query_text ++ "'.".
Definition actor_films (name : Py.value) : string :=
  "ğŸ¬ Film populer yang dibintangi **" ++ Py.str name ++ "**:".
Definition not_understood : string :=
  "Maaf, saya tidak mengerti. Silakan gunakan tombol di bawah ini:".
Definition choose_genre : string := "ğŸ·ï¸ **Pilih Genre:**".
Definition genre_invalid (genre_name : string) : string :=
  "âŒ Genre '" ++ genre_name ++ "' tidak valid.".
Definition genre_no_results (genre_name : string) : string :=
  "âŒ Tidak ada film yang ditemukan untuk genre " ++ Py.capitalize genre_name ++ ".".
Definition genre_films (genre_name : string) : string :=
  "ğŸ¬ Film Populer Genre **" ++ Py.capitalize genre_name ++ "**:".
Definition back_to_menu : list button :=
  [InlineKeyboardButton "ğŸ›ï¸ Kembali ke Menu" "menu_menu"].

Definition call_search_movie (e : env) (query_text : string) : M unit :=
  set_args (Py.split query_text) ;;
  data <- tmdb_request e "search/movie"
            (Some [("query", Py.VStr query_text)]) ;;
  movies <- lift (Py.get data "results" (Py.VList [])) ;;
  if negb (Py.truthy movies)
  then emit (reply_text
          ("âŒ Tidak ada film yang ditemukan untuk '" ++ query_text ++ "'.")
          (Some create_error_keyboard) None)
  else
    reply_markup <- lift (create_movie_keyboard movies "detail") ;;
    emit (reply_text "ğŸ¬ Hasil pencarian:" (Some reply_markup) None).

(** [[movie for movie in known_for if movie.get('media_type') == 'movie']] *)
Fixpoint movies_only (l : list Py.value) : Py.result (list Py.value) :=
  match l with
  | [] => Py.Returns []
  | movie :: rest =>
      Py.rbind (Py.get movie "media_type" Py.VNone) (fun media_type =>
      Py.rbind (movies_only rest) (fun kept =>
      Py.Returns (if Py.eq_str media_type "movie" then movie :: kept
                  else kept)))
  end.

Definition call_search_actor (e : env) (query_text : string) : M unit :=
  set_args (Py.split query_text) ;;
  data <- tmdb_request e "search/person"
            (Some [("query", Py.VStr query_text)]) ;;
  actors <- lift (Py.get data "results" (Py.VList [])) ;;
  nothing <- (if negb (Py.truthy actors) then ret true
              else
                known <- lift (Py.rbind (Py.first actors) (fun top =>
                                 Py.get top "known_for" Py.VNone)) ;;
                ret (negb (Py.truthy known))) ;;
  if nothing : bool
  then emit (reply_text (actor_not_found query_text)
          (Some create_error_keyboard) None)
  else
    actor <- lift (Py.first actors) ;;
    name <- lift (Py.getitem actor "name") ;;
    credits <- lift (Py.rbind (Py.get actor "known_for" (Py.VList []))
                       Py.iter) ;;
    known_for <- lift (movies_only credits) ;;
    reply_markup <- lift (create_movie_keyboard (Py.VList known_for)
                            "detail") ;;
    emit (reply_text (actor_films name) (Some reply_markup) Markdown).

Definition call_add_favorite (e : env) (query_text : string) : M unit :=
  set_args (Py.split query_text) ;;
  add_favorite_by_title e.

(** The dispatch on the popped state ("Logika state machine"). *)
Definition state_machine (e : env) (state : Py.value) (text : string)
  : M unit :=
  if Py.eq_str state "search" then call_search_movie e text
  else if Py.eq_str state "actor" then call_search_actor e text
  else if Py.eq_str state "favorite" then call_add_favorite e text
  else
    let (start_message, reply_markup) := create_main_menu in
    emit (reply_text not_understood (Some reply_markup) None).

Definition handle_text_message (e : env) (user_id : Z) (text : string)
  : M unit :=
  state <- user_data_pop user_id "state" Py.VNone ;;
  state_machine e state text.

Definition genre_entry (g : string) : list button :=
  [InlineKeyboardButton (Py.capitalize g) ("genre_" ++ g)].

Definition handle_menu_button (e : env) (user_id : Z) (data : string)
  : M unit :=
  emit answer ;;
  action <- lift (Py.after_underscore data) ;;
  emit delete ;;
  if String.eqb action "search" then
    user_data_set user_id "state" (Py.VStr "search") ;;
    emit (reply_text
            "ğŸ” Silakan ketik judul film yang ingin Anda cari:"
            None None)
  else if String.eqb action "actor" then
    user_data_set user_id "state" (Py.VStr "actor") ;;
    emit (reply_text "ğŸ­ Silakan ketik nama aktor atau aktris:" None None)
  else if String.eqb action "favorite" then
    user_data_set user_id "state" (Py.VStr "favorite") ;;
    emit (reply_text
            "â­ Silakan ketik judul film untuk ditambahkan ke favorit:"
            None None)
  else if String.eqb action "favorites" then
    favorites_list <- favorites_of e user_id ;;
    match favorites_list with
    | [] => emit (reply_text
            "âŒ Anda belum memiliki film favorit."
            (Some create_error_keyboard) None)
    | _ =>
        let message :=
          "â­ **Daftar Film Favorit Anda:**
" ++
          Py.join "
" (map (fun movie => ("- " ++ movie)) favorites_list) in
        emit (reply_text message (Some create_error_keyboard) Markdown)
    end
  else if String.eqb action "trending" then
    data <- tmdb_request e "trending/movie/day" None ;;
    movies <- lift (Py.get data "results" (Py.VList [])) ;;
    if negb (Py.truthy movies)
    then emit (reply_text
            "âŒ Gagal mengambil film trending."
            (Some create_error_keyboard) None)
    else
      reply_markup <- lift (create_movie_keyboard movies "detail") ;;
      emit (reply_text
              "ğŸ¬ **Film Paling Populer Hari Ini:**"
              (Some reply_markup) Markdown)
  else if String.eqb action "genres" then
    let genres_list := firstn 10 (Py.keys (GENRES e)) in
    let keyboard := (map genre_entry genres_list ++ [back_to_menu])%list in
    emit (reply_text choose_genre (Some (InlineKeyboardMarkup keyboard))
            Markdown)
  else if String.eqb action "cinema" then
    let keyboard := [[KeyboardButton "ğŸ“ Kirim Lokasimu Sekarang" true]] in
    emit (reply_text
            "Untuk mencari bioskop terdekat, saya butuh lokasi Anda. Silakan klik tombol di bawah."
            (Some (ReplyKeyboardMarkup keyboard true true))
            None)
  else if String.eqb action "help" then
    let help_text := "
â“ **Bantuan**

- **/start**: Menampilkan menu utama.
- **/favorite [judul]**: Menambahkan film ke daftar favorit.
- **/favorites**: Melihat daftar film favorit.

Anda juga bisa menggunakan tombol-tombol interaktif pada menu utama untuk semua fitur.
        " in
    emit (reply_text help_text (Some create_error_keyboard) Markdown)
  else if String.eqb action "menu" then
    let (start_message, reply_markup) := create_main_menu in
    emit (reply_text start_message (Some reply_markup) Markdown)
  else ret tt.

Definition handle_genre_button (e : env) (data : string) : M unit :=
  emit answer ;;
  emit delete ;;
  genre_name <- lift (Py.after_underscore data) ;;
  let genre_id :=
    match Py.lookup genre_name (GENRES e) with
    | Some id => id
    | None => Py.VNone
    end in
  if negb (Py.truthy genre_id)
  then emit (reply_text (genre_invalid genre_name)
          (Some create_error_keyboard) None)
  else
    data <- tmdb_request e "discover/movie"
              (Some [("with_genres", genre_id);
                     ("sort_by", Py.VStr "popularity.desc")]) ;;
    movies <- lift (Py.get data "results" (Py.VList [])) ;;
    if negb (Py.truthy movies)
    then emit (reply_text (genre_no_results genre_name)
            (Some create_error_keyboard) None)
    else
      reply_markup <- lift (create_movie_keyboard movies "detail") ;;
      emit (reply_text (genre_films genre_name) (Some reply_markup) Markdown).

Definition maps_url (lat lon : Py.value) : string :=
  "https://www.google.com/maps/search/bioskop/@" ++ Py.str lat ++ "," ++ Py.str lon ++ ",15z".

Definition location_received (maps_url : string) : string :=
  "âœ… Lokasi diterima! Klik link di bawah untuk melihat bioskop terdekat di Google Maps:

" ++ maps_url.

Definition handle_location (lat lon : Py.value) : M unit :=
  emit (reply_text (location_received (maps_url lat lon))
          (Some ReplyKeyboardRemove) None) ;;
  emit (sleep 2) ;;
  let (start_message, reply_markup) := create_main_menu in
  emit (reply_text
          "Ada lagi yang bisa saya bantu?"
          (Some reply_markup) Markdown).

(** A handler run from a world, and what it asked of the catalog. *)
Definition run {A} (c : M A) (w : world) : Py.result A * world := c w.

Definition is_lookup (c : call) : bool :=
  match c with
  | requests_get _ _ => true
  | _ => false
  end.

Definition lookups (w : world) : list call := List.filter is_lookup (calls w).

Definition replies (w : world) : list call :=
  List.filter (fun c => match c with reply_text _ _ _ => true | _ => false end)
    (calls w).

(** ** Vocabulary of the properties *)

(** A computation that never touches [user_data]. *)
Definition keeps_user_data {A} (c : M A) : Prop :=
  forall w, user_data (snd (c w)) = user_data w.

(** The pending intent of [uid], as the [pop] of [handle_text_message]
    reads it, and the world once it has been popped. *)
Definition pending (uid : Z) (w : world) : Py.value :=
  fst (Py.pop "state" Py.VNone (the_user_data uid w)).

Definition cleared (uid : Z) (w : world) : world :=
  World (<[uid := snd (Py.pop "state" Py.VNone (the_user_data uid w))]>
           (user_data w))
    (args w) (favorites w) (calls w).

(** A movie summary as the catalog lists it: an object with an id and a
    title whose release date, when the key is there, is null or text. *)
Definition is_movie_summary (v : Py.value) : bool :=
  match v with
  | Py.VDict d =>
      match Py.lookup "id" d, Py.lookup "title" d with
      | Some _, Some _ =>
          match Py.lookup "release_date" d with
          | None | Some Py.VNone | Some (Py.VStr _) => true
          | Some _ => false
          end
      | _, _ => false
      end
  | _ => false
  end.

Fixpoint last_char (s : string) : option ascii :=
  match s with
  | "" => None
  | String c "" => Some c
  | String _ s' => last_char s'
  end.

(** The ways a catalog request fails: no key is configured, the transport
    gives no response, or the response carries an error status. *)
Inductive request_fails (e : env) (endpoint : string)
    (params : option Py.dict) : Prop :=
| key_not_configured :
    TMDB_API_KEY e = None \/ TMDB_API_KEY e = Some "" ->
    request_fails e endpoint params
| no_response (api_key : string) (err : Py.transport_error) :
    TMDB_API_KEY e = Some api_key ->
    catalog e (api_url endpoint) (base_params api_key params)
    = NoResponse err ->
    request_fails e endpoint params
| error_status (api_key : string) (status : Z) (body : option Py.value) :
    TMDB_API_KEY e = Some api_key ->
    catalog e (api_url endpoint) (base_params api_key params)
    = Response status body ->
    (400 <= status < 600)%Z ->
    request_fails e endpoint params.

(** The request is answered with status 200 and the empty object. *)
Definition answers_nothing (e : env) (endpoint : string)
    (params : option Py.dict) : Prop :=
  exists api_key,
    TMDB_API_KEY e = Some api_key /\ api_key <> "" /\
    catalog e (api_url endpoint) (base_params api_key params)
    = Response 200 (Some (Py.VDict [])).

(** ** Sample surroundings *)

Definition empty_world : world := World ∅ [] [] [].


(** A person whose known-for credits are television only. *)
Definition tv_only_person : Py.value :=
  Py.VDict
    [("id", Py.VInt 17419); ("name", Py.VStr "Bryan Cranston");
     ("known_for",
      Py.VList
        [Py.VDict [("media_type", Py.VStr "tv"); ("id", Py.VInt 1396);
                   ("name", Py.VStr "Breaking Bad")];
         Py.VDict [("media_type", Py.VStr "tv"); ("id", Py.VInt 2004);
                   ("name", Py.VStr "Malcolm in the Middle")]])].

Definition summary (id : Z) (title release_date : string) : Py.value :=
  Py.VDict [("id", Py.VInt id); ("title", Py.VStr title);
            ("release_date", Py.VStr release_date)].

Definition six_movies : list Py.value :=
  [summary 27205 "Inception" "2010-07-15";
   summary 157336 "Interstellar" "2014-11-05";
   summary 155 "The Dark Knight" "2008-07-16";
   summary 1124 "The Prestige" "2006-10-17";
   summary 77 "Memento" "2000-10-11";
   summary 374720 "Dunkirk" "2017-07-19"].

Definition twelve_genres : Py.dict :=
  [("action", Py.VInt 28); ("adventure", Py.VInt 12);
   ("animation", Py.VInt 16); ("comedy", Py.VInt 35); ("crime", Py.VInt 80);
   ("documentary", Py.VInt 99); ("drama", Py.VInt 18);
   ("family", Py.VInt 10751); ("fantasy", Py.VInt 14);
   ("history", Py.VInt 36); ("horror", Py.VInt 27);
   ("music", Py.VInt 10402)].

(** A catalog that answers every request with the given object. *)
Definition answering (genres : Py.dict) (body : Py.value) : env :=
  Env (Some "key") genres (fun _ _ => Response 200 (Some body)) true.

(** A catalog that answers every request with the given status, no body. *)
Definition refusing (status : Z) : env :=
  Env (Some "key") [] (fun _ _ => Response status None) true.

Definition unreachable : env :=
  Env (Some "key") [] (fun _ _ => NoResponse Py.ConnectionError) true.

Definition unconfigured : env :=
  Env None [] (fun _ _ => Response 200 (Some (Py.VDict []))) true.

(** ** Start-up and routing, as [main] sets them up *)

(** [bool(s)] for a setting read by [os.getenv]. *)
Definition is_set (s : option string) : bool :=
  match s with
  | Some (String _ _) => true
  | _ => false
  end.

(** [setup_database], over a database in which the table may be missing
    ([None]): [CREATE TABLE IF NOT EXISTS favorites (...)] creates it empty
    and leaves an existing one alone; without a connection nothing is
    done. *)
Definition setup_database (up : bool) (db : option Store.table)
  : option Store.table :=
  match Store.get_db_connection up with
  | Some conn =>
      match db with
      | Some t => Some t
      | None => Some []
      end
  | None => db
  end.

(** [main] up to the start of polling: with a setting missing it returns at
    once; otherwise it sets up the table and loads the genre table into
    [GENRES].  The result is the process that then handles updates, with
    the database as [setup_database] left it. *)
Definition main (BOT_TOKEN DATABASE_URL : option string) (e : env)
    (db : option Store.table) : M (option (env * option Store.table)) :=
  if negb (forallb is_set [BOT_TOKEN; TMDB_API_KEY e; DATABASE_URL])
  then ret None
  else
    let db := setup_database (database_up e) db in
    genres <- load_genres e ;;
    ret (Some (Env (TMDB_API_KEY e) genres (catalog e) (database_up e), db)).

Module Route.

Inductive handler : Type :=
| start
| add_favorite_by_title
| view_favorites
| show_movie_details
| save_favorite_movie
| handle_menu_button
| handle_genre_button
| handle_location
| handle_text_message.

(** The [CallbackQueryHandler]s in the order [main] adds them.  A pattern
    [^detail_] is tried with [re.match], so it takes the tokens that start
    with "detail_". *)
Definition callback_handlers : list (string * handler) :=
  [("detail_", show_movie_details); ("save_", save_favorite_movie);
   ("menu_", handle_menu_button); ("genre_", handle_genre_button)].

(** The first handler whose pattern matches takes the button press. *)
Fixpoint first_match (data : string) (handlers : list (string * handler))
  : option handler :=
  match handlers with
  | [] => None
  | (pattern, h) :: rest =>
      if Py.starts_with pattern data then Some h else first_match data rest
  end.

Definition callback (data : string) : option handler :=
  first_match data callback_handlers.

End Route.

(** ** Vocabulary of the further properties *)

(** The actions [handle_menu_button] has a branch for. *)
Definition menu_actions : list string :=
  ["search"; "actor"; "favorite"; "favorites"; "trending"; "genres";
   "cinema"; "help"; "menu"].

(** The three actions that ask for free text. *)
Definition prompt_actions : list string := ["search"; "actor"; "favorite"].

Definition movie_not_found (query : string) : string :=
  "âŒ Tidak ada film yang ditemukan untuk '" ++ query ++ "'.".
Definition choose_movie : string :=
  "ğŸ¬ Pilih film yang ingin Anda simpan ke favorit:".
Definition search_results : string := "ğŸ¬ Hasil pencarian:".
Definition trending_failed : string := "âŒ Gagal mengambil film trending.".
Definition trending_films : string := "ğŸ¬ **Film Paling Populer Hari Ini:**".
Definition no_favorites_yet : string := "âŒ Anda belum memiliki film favorit.".
Definition no_favorites_command : string :=
  "âŒ Anda belum memiliki film favorit. Tambahkan dengan perintah /favorite.".
Definition favorites_heading : string := "â­ **Daftar Film Favorit Anda:**
".
Definition prompt_for (action : string) : string :=
  if String.eqb action "search" then "ğŸ” Silakan ketik judul film yang ingin Anda cari:"
  else if String.eqb action "actor" then "ğŸ­ Silakan ketik nama aktor atau aktris:"
  else "â­ Silakan ketik judul film untuk ditambahkan ke favorit:".

(** A table replayed from the empty one: each request is one call of
    [add_favorite_to_db], with the connection up or down. *)
Definition add_request : Type := bool * (Z * Z * string).

Definition replay (requests : list add_request) : Store.table :=
  fold_left
    (fun t '(up, (u, m, title)) =>
       snd (Store.add_favorite_to_db up t u m title))
    requests [].

(** One object of the catalog's genre list. *)
Definition genre_object (id : Py.value) (name : string) : Py.value :=
  Py.VDict [("id", id); ("name", Py.VStr name)].

(** [movie.get('media_type') == 'movie'] on an object. *)
Definition is_movie_credit (credit : Py.value) : bool :=
  match credit with
  | Py.VDict d =>
      match Py.lookup "media_type" d with
      | Some media_type => Py.eq_str media_type "movie"
      | None => false
      end
  | _ => false
  end.

Definition is_object (v : Py.value) : bool :=
  match v with
  | Py.VDict _ => true
  | _ => false
  end.

(** What [tmdb_request] makes of an exchange: the decoded body of a
    response whose status is no error status, and the empty object
    otherwise. *)
Definition answer_of (x : exchange) : Py.value :=
  match x with
  | NoResponse _ => Py.VDict []
  | Response status_code body =>
      if ((400 <=? status_code) && (status_code <? 600))%Z then Py.VDict []
      else match body with
           | Some v => v
           | None => Py.VDict []
           end
  end.

(** A computation that leaves an observation of the world as it was,
    whether it returns or raises. *)
Definition preserves {A X} (observe : world -> X) (c : M A) : Prop :=
  forall w, observe (snd (c w)) = observe w.

Definition is_reply (c : call) : bool :=
  match c with
  | reply_text _ _ _ => true
  | _ => false
  end.

Definition known_action (action : string) : bool :=
  existsb (String.eqb action) menu_actions.

Definition is_prompt (action : string) : bool :=
  existsb (String.eqb action) prompt_actions.

(** All buttons of a keyboard. *)
Definition buttons_of (reply_markup : markup) : list button :=
  match reply_markup with
  | InlineKeyboardMarkup keyboard => concat keyboard
  | _ => []
  end.

(** ** Further sample surroundings *)

Definition film_and_tv_person : Py.value :=
  Py.VDict
    [("id", Py.VInt 6384); ("name", Py.VStr "Keanu Reeves");
     ("known_for",
      Py.VList
        [Py.VDict [("media_type", Py.VStr "movie"); ("id", Py.VInt 603);
                   ("title", Py.VStr "The Matrix");
                   ("release_date", Py.VStr "1999-03-30")];
         Py.VDict [("media_type", Py.VStr "tv"); ("id", Py.VInt 61889);
                   ("name", Py.VStr "Swedish Dicks")]])].

Definition genre_list : Py.value :=
  Py.VDict
    [("genres",
      Py.VList [genre_object (Py.VInt 28) "Action";
                genre_object (Py.VInt 35) "Comedy"])].

(** A catalog that never responds, behind a loaded genre table. *)
Definition unreachable_with (genres : Py.dict) : env :=
  Env (Some "key") genres (fun _ _ => NoResponse Py.ConnectionError) true.

Definition two_favorites : world :=
  World ∅ [] [Store.Row 1 2 "Zeta"; Store.Row 1 3 "Alpha"] [].

(** * Properties *)

#[local] Arguments String.append !s1 s2 : simpl nomatch.

Example str_examples :
  Py.str (Py.VInt 27205) = "27205" /\ Py.str (Py.VInt (-3)) = "-3" /\
  Py.str (Py.VStr "Inception") = "Inception" /\
  Py.str (Py.VList [Py.VStr "tv"; Py.VNone]) = "['tv', None]" /\
  Py.capitalize "science FICTION" = "Science fiction" /\
  Py.split "  the   dark knight " = ["the"; "dark"; "knight"] /\
  Py.after_underscore "genre_tv_movie" = Py.Returns "tv_movie".
Proof. vm_compute. repeat split. Qed.

(** ** Dicts *)

Section DictFacts.
Import Py.

Lemma lookup_delitem (k : string) (d : dict) : lookup k (delitem k d) = None.
Proof.
  induction d as [|[k' v] d IH]; simpl; [reflexivity|].
  destruct (String.eqb k' k) eqn:E; [exact IH|].
  simpl. rewrite E. exact IH.
Qed.

Lemma delitem_absent (k : string) (d : dict) :
  lookup k d = None -> delitem k d = d.
Proof.
  induction d as [|[k' v] d IH]; simpl; [reflexivity|].
  destruct (String.eqb k' k); [discriminate|].
  intros H. rewrite IH by exact H. reflexivity.
Qed.

Lemma lookup_after_pop (k : string) (dflt : value) (d : dict) :
  lookup k (snd (pop k dflt d)) = None.
Proof.
  unfold pop. destruct (lookup k d) eqn:E; simpl.
  - apply lookup_delitem.
  - exact E.
Qed.

Lemma lookup_setitem (k : string) (v : value) (d : dict) :
  lookup k (setitem k v d) = Some v.
Proof.
  induction d as [|[k' v'] d IH]; simpl.
  - rewrite String.eqb_refl. reflexivity.
  - destruct (String.eqb k' k) eqn:E; simpl; rewrite E; [reflexivity|exact IH].
Qed.

Lemma lookup_In (k : string) (d : dict) :
  In k (keys d) -> is_Some (lookup k d).
Proof.
  induction d as [|[k' v] d IH]; simpl; [tauto|].
  intros [->|H].
  - rewrite String.eqb_refl. eauto.
  - destruct (String.eqb k' k); eauto.
Qed.

End DictFacts.

(** ** What a handler leaves alone *)

Section Keeps.

Lemma keeps_ret {A} (a : A) : keeps_user_data (ret a).
Proof. intros w. reflexivity. Qed.

Lemma keeps_lift {A} (r : Py.result A) : keeps_user_data (lift r).
Proof. intros w. reflexivity. Qed.

Lemma keeps_emit (c : call) : keeps_user_data (emit c).
Proof. intros w. reflexivity. Qed.

Lemma keeps_set_args (l : list string) : keeps_user_data (set_args l).
Proof. intros w. reflexivity. Qed.

Lemma keeps_get_args : keeps_user_data get_args.
Proof. intros w. reflexivity. Qed.

Lemma keeps_favorites_of (e : env) (u : Z) : keeps_user_data (favorites_of e u).
Proof. intros w. reflexivity. Qed.

Lemma keeps_bind {A B} (c : M A) (k : A -> M B) :
  keeps_user_data c -> (forall a, keeps_user_data (k a)) ->
  keeps_user_data (bind c k).
Proof.
  intros Hc Hk w. unfold bind. specialize (Hc w).
  destruct (c w) as [[a|x] w1]; simpl in *.
  - rewrite Hk. exact Hc.
  - exact Hc.
Qed.

Lemma keeps_try_except {A} (body : M A) (catches : Py.exn -> bool)
    (handler : M A) :
  keeps_user_data body -> keeps_user_data handler ->
  keeps_user_data (try_except body catches handler).
Proof.
  intros Hb Hh w. unfold try_except. specialize (Hb w).
  destruct (body w) as [[a|x] w1]; simpl in *; [exact Hb|].
  destruct (catches x); simpl; [rewrite Hh|]; exact Hb.
Qed.

End Keeps.

Create HintDb keeps discriminated.
#[local] Hint Resolve keeps_ret keeps_lift keeps_emit keeps_set_args
  keeps_get_args keeps_favorites_of : keeps.

(** Walks a handler: binds, then the branch taken. *)
Ltac keeps_step :=
  match goal with
  | |- keeps_user_data (bind _ _) => apply keeps_bind; [|intros]
  | |- keeps_user_data (try_except _ _ _) => apply keeps_try_except
  | |- keeps_user_data (if ?b then _ else _) => destruct b
  | |- keeps_user_data (let (_, _) := ?p in _) => destruct p
  | |- keeps_user_data (match ?x with _ => _ end) => destruct x
  | |- keeps_user_data _ => solve [auto with keeps]
  end.

Lemma keeps_get_url e url params : keeps_user_data (get_url e url params).
Proof. unfold get_url. repeat keeps_step. Qed.

Lemma keeps_tmdb_request e endpoint params :
  keeps_user_data (tmdb_request e endpoint params).
Proof.
  unfold tmdb_request.
  destruct (TMDB_API_KEY e) as [[|c key]|]; auto with keeps.
  apply keeps_try_except; auto with keeps.
  apply keeps_bind; [apply keeps_get_url|intros]. repeat keeps_step.
Qed.
#[local] Hint Resolve keeps_tmdb_request : keeps.

Lemma keeps_add_favorite_by_title e : keeps_user_data (add_favorite_by_title e).
Proof. unfold add_favorite_by_title. repeat keeps_step. Qed.

Lemma keeps_call_search_movie e q : keeps_user_data (call_search_movie e q).
Proof. unfold call_search_movie. repeat keeps_step. Qed.

Lemma keeps_call_search_actor e q : keeps_user_data (call_search_actor e q).
Proof. unfold call_search_actor. repeat keeps_step. Qed.

Lemma keeps_call_add_favorite e q : keeps_user_data (call_add_favorite e q).
Proof.
  unfold call_add_favorite.
  apply keeps_bind; [auto with keeps|intros; apply keeps_add_favorite_by_title].
Qed.

Lemma keeps_state_machine e state text :
  keeps_user_data (state_machine e state text).
Proof.
  unfold state_machine.
  destruct (Py.eq_str state "search"); [apply keeps_call_search_movie|].
  destruct (Py.eq_str state "actor"); [apply keeps_call_search_actor|].
  destruct (Py.eq_str state "favorite"); [apply keeps_call_add_favorite|].
  repeat keeps_step.
Qed.

(** ** The pending intent *)

Lemma the_user_data_insert (uid : Z) (d : Py.dict) (w : world) um :
  user_data w = <[uid := d]> um -> the_user_data uid w = d.
Proof.
  intros H. unfold the_user_data. rewrite H, lookup_insert_eq. reflexivity.
Qed.

Lemma handle_text_message_pops e uid text w :
  run (handle_text_message e uid text) w
  = run (state_machine e (pending uid w) text) (cleared uid w).
Proof.
  unfold run, handle_text_message, bind, user_data_pop, pending, cleared.
  destruct (Py.pop "state" Py.VNone (the_user_data uid w)) as [v d].
  reflexivity.
Qed.

Lemma no_state_after_clearing uid w :
  Py.lookup "state" (the_user_data uid (cleared uid w)) = None.
Proof.
  rewrite (the_user_data_insert uid _ (cleared uid w) (user_data w) eq_refl).
  apply lookup_after_pop.
Qed.

Lemma no_state_after_handling e uid text w :
  Py.lookup "state"
    (the_user_data uid (snd (run (handle_text_message e uid text) w))) = None.
Proof.
  rewrite handle_text_message_pops. unfold run.
  pose proof (keeps_state_machine e (pending uid w) text (cleared uid w)) as K.
  unfold the_user_data. rewrite K.
  apply no_state_after_clearing.
Qed.

(** The state of another user is not touched. *)
Lemma other_user_untouched e uid other text w :
  other <> uid ->
  the_user_data other (snd (run (handle_text_message e uid text) w))
  = the_user_data other w.
Proof.
  intros Hne. rewrite handle_text_message_pops. unfold run.
  pose proof (keeps_state_machine e (pending uid w) text (cleared uid w)) as K.
  unfold the_user_data. rewrite K. unfold cleared. simpl.
  rewrite lookup_insert_ne by congruence. reflexivity.
Qed.

(** The three prompts of the menu set the state that the next text message
    pops. *)
Lemma menu_button_sets_intent e uid w :
  pending uid (snd (run (handle_menu_button e uid "menu_search") w))
  = Py.VStr "search" /\
  pending uid (snd (run (handle_menu_button e uid "menu_actor") w))
  = Py.VStr "actor" /\
  pending uid (snd (run (handle_menu_button e uid "menu_favorite") w))
  = Py.VStr "favorite".
Proof.
  unfold pending, the_user_data, Py.pop.
  repeat split; simpl; rewrite lookup_insert_eq, lookup_setitem; reflexivity.
Qed.

Lemma pending_none uid w :
  Py.lookup "state" (the_user_data uid w) = None -> pending uid w = Py.VNone.
Proof. intros H. unfold pending, Py.pop. rewrite H. reflexivity. Qed.

(** With nothing pending the handler answers with the menu and stops. *)
Lemma idle_text_message e uid text w :
  Py.lookup "state" (the_user_data uid w) = None ->
  run (handle_text_message e uid text) w
  = (Py.Returns tt,
     record (reply_text not_understood (Some (snd create_main_menu)) None)
       (cleared uid w)).
Proof.
  intros H. rewrite handle_text_message_pops, (pending_none _ _ H).
  reflexivity.
Qed.

Lemma lookups_record_reply msg kb pm w :
  lookups (record (reply_text msg kb pm) w) = lookups w.
Proof.
  unfold lookups, record. simpl. rewrite List.filter_app. simpl.
  apply app_nil_r.
Qed.

(** C8: a text message that finds no pending intent is answered with the
    main menu under the "didn't understand" line, the handler returns
    normally, and the list of catalog requests is what it was before. *)
Theorem text_without_intent_shows_menu e uid text w :
  Py.lookup "state" (the_user_data uid w) = None ->
  let after := run (handle_text_message e uid text) w in
  fst after = Py.Returns tt /\
  calls (snd after)
  = (calls w
     ++ [reply_text not_understood (Some (snd create_main_menu)) None])%list /\
  lookups (snd after) = lookups w.
Proof.
  intros H after. subst after. rewrite (idle_text_message _ _ _ _ H). simpl.
  split; [reflexivity|]. split; [reflexivity|].
  apply (lookups_record_reply _ _ _ (cleared uid w)).
Qed.

(** C5: a text message pops the sender's state before anything else: the
    dispatch runs on the value that was stored, in a world where the state
    is gone; the state is still gone when the handler ends, whether it
    returned or raised; so the next text message of that user finds nothing
    pending and gets the menu. *)
Theorem text_message_consumes_intent e uid text w :
  let after := snd (run (handle_text_message e uid text) w) in
  run (handle_text_message e uid text) w
  = run (state_machine e (pending uid w) text) (cleared uid w) /\
  Py.lookup "state" (the_user_data uid (cleared uid w)) = None /\
  Py.lookup "state" (the_user_data uid after) = None /\
  forall text2,
    pending uid after = Py.VNone /\
    run (handle_text_message e uid text2) after
    = (Py.Returns tt,
       record (reply_text not_understood (Some (snd create_main_menu)) None)
         (cleared uid after)).
Proof.
  intros after.
  split; [apply handle_text_message_pops|].
  split; [apply no_state_after_clearing|].
  assert (Py.lookup "state" (the_user_data uid after) = None) as H
    by apply no_state_after_handling.
  split; [exact H|].
  intros text2. split; [apply pending_none, H|apply idle_text_message, H].
Qed.

(** ** The result keyboard *)

Section Keyboard.
Import Py.

Lemma for_each_total {A B} (f : A -> result B) (l : list A) :
  Forall (fun x => exists y, f x = Returns y) l ->
  exists ys, for_each f l = Returns ys /\
             Forall2 (fun x y => f x = Returns y) l ys.
Proof.
  induction 1 as [|x l [y Hy] _ [ys [Hys HF]]]; simpl.
  - exists []. split; [reflexivity|constructor].
  - exists (y :: ys). rewrite Hy. simpl. rewrite Hys. simpl.
    split; [reflexivity|]. constructor; assumption.
Qed.

Lemma append_assoc (s t u : string) : (s ++ t) ++ u = s ++ t ++ u.
Proof. induction s as [|a s IH]; simpl; [reflexivity|]. f_equal. exact IH. Qed.

Lemma last_char_snoc (s : string) (c : ascii) :
  last_char (s ++ String c "") = Some c.
Proof.
  induction s as [|a s IH]; simpl; [reflexivity|].
  destruct (s ++ String c "") eqn:E; [|exact IH].
  destruct s; discriminate.
Qed.

Lemma last_char_app (s t : string) (c : ascii) :
  last_char (s ++ t ++ String c "") = Some c.
Proof.
  rewrite <- append_assoc. apply last_char_snoc.
Qed.

Lemma last_char_label (title year : string) :
  last_char (title ++ " (" ++ year ++ ")") = Some ")"%char.
Proof. rewrite <- !append_assoc. apply last_char_snoc. Qed.

(** Whenever the loop body yields a row, it is one button, labelled
    "Title (Year)" and tagged with the prefix and the id. *)
Lemma movie_entry_shape (callback_prefix : string) (movie : value)
    (entry : list button) :
  movie_entry callback_prefix movie = Returns entry ->
  exists title year id,
    getitem movie "id" = Returns id /\
    getitem movie "title" = Returns title /\
    entry = [InlineKeyboardButton (str title ++ " (" ++ year ++ ")")
               (callback_prefix ++ "_" ++ str id)].
Proof.
  unfold movie_entry.
  destruct (getitem movie "id") as [id|]; [|discriminate].
  destruct (getitem movie "title") as [title|]; [|discriminate]. simpl.
  destruct (get movie "release_date" VNone) as [present|]; [|discriminate].
  simpl.
  destruct (if truthy present
            then rbind (get movie "release_date" (VStr "Unknown"))
                   (slice_to 4)
            else Returns (VStr "N/A")) as [release_year|]; [|discriminate].
  simpl. intros [= <-]. exists title, (str release_year), id. repeat split.
Qed.

(** On a movie summary the loop body does yield a row. *)
Lemma movie_entry_summary (callback_prefix : string) (movie : value) :
  is_movie_summary movie = true ->
  exists entry, movie_entry callback_prefix movie = Returns entry.
Proof.
  destruct movie as [| | | | |l|d]; try discriminate. simpl.
  unfold movie_entry, getitem, get.
  destruct (lookup "id" d) as [id|]; [|discriminate].
  destruct (lookup "title" d) as [title|]; [|discriminate].
  destruct (lookup "release_date" d) as [[| | | |s| |]|]; try discriminate;
    simpl; try (eexists; reflexivity).
  destruct (negb (String.eqb s "")); simpl; eexists; reflexivity.
Qed.

Lemma movie_entry_is_not_menu_entry (callback_prefix : string)
    (movie : value) :
  movie_entry callback_prefix movie <> Returns menu_entry.
Proof.
  intros E.
  destruct (movie_entry_shape callback_prefix movie _ E)
    as (title & year & id & _ & _ & E').
  injection E' as Etext _. symmetry in Etext.
  apply (f_equal last_char) in Etext.
  pose proof (eq_trans (eq_sym (last_char_label (str title) year)) Etext) as X.
  vm_compute in X. discriminate.
Qed.

Lemma create_movie_keyboard_list (movies : list value)
    (callback_prefix : string) :
  create_movie_keyboard (VList movies) callback_prefix
  = rbind (for_each (movie_entry callback_prefix) (firstn 5 movies))
      (fun keyboard =>
         Returns (InlineKeyboardMarkup (keyboard ++ [menu_entry])%list)).
Proof. reflexivity. Qed.

Lemma for_each_rows {A B} (f : A -> result B) (l : list A) (ys : list B) :
  for_each f l = Returns ys -> Forall2 (fun x y => f x = Returns y) l ys.
Proof.
  revert ys. induction l as [|x l IH]; simpl; intros ys.
  - intros [= <-]. constructor.
  - destruct (f x) as [y|] eqn:E; [|discriminate]. simpl.
    destruct (for_each f l) as [ys'|]; [|discriminate]. simpl.
    intros [= <-]. constructor; [exact E|apply IH; reflexivity].
Qed.

Lemma menu_entry_not_among (callback_prefix : string) (shown : list value)
    (entries : list (list button)) :
  Forall2 (fun movie entry => movie_entry callback_prefix movie = Returns entry)
    shown entries ->
  ~ In menu_entry entries.
Proof.
  induction 1 as [|movie entry l l' Hentry _ IH]; intros Hin.
  - destruct Hin.
  - destruct Hin as [->|Hin].
    + exact (movie_entry_is_not_menu_entry _ _ Hentry).
    + exact (IH Hin).
Qed.

End Keyboard.

(** C3: of a sequence of more than five movies, a keyboard that is rendered
    shows five rows, the rows of the first five movies in their order, none
    of them the menu row, and after them the one row that returns to the
    main menu; and a keyboard is rendered when the first five are movie
    summaries. *)
Theorem keyboard_of_more_than_five (movies : list Py.value)
    (callback_prefix : string) :
  (5 < length movies)%nat ->
  (forall reply_markup,
     create_movie_keyboard (Py.VList movies) callback_prefix
     = Py.Returns reply_markup ->
     exists entries,
       reply_markup = InlineKeyboardMarkup (entries ++ [menu_entry])%list /\
       length entries = 5%nat /\
       Forall2 (fun movie entry =>
                  movie_entry callback_prefix movie = Py.Returns entry)
         (firstn 5 movies) entries /\
       ~ In menu_entry entries) /\
  (Forall (fun movie => is_movie_summary movie = true) (firstn 5 movies) ->
   exists reply_markup,
     create_movie_keyboard (Py.VList movies) callback_prefix
     = Py.Returns reply_markup).
Proof.
  intros Hlen. rewrite create_movie_keyboard_list. split.
  - intros reply_markup.
    destruct (Py.for_each _ _) as [entries|] eqn:Hrun; [|discriminate].
    simpl. intros [= <-].
    pose proof (for_each_rows _ _ _ Hrun) as Hrows.
    exists entries. split; [reflexivity|]. split.
    + rewrite <- (Forall2_length _ _ _ Hrows), length_take. lia.
    + split; [exact Hrows|exact (menu_entry_not_among _ _ _ Hrows)].
  - intros Hall.
    destruct (for_each_total (movie_entry callback_prefix) (firstn 5 movies))
      as [entries [Hrun _]].
    { eapply Forall_impl; [exact Hall|]. simpl. intros movie Hm.
      exact (movie_entry_summary callback_prefix movie Hm). }
    rewrite Hrun. simpl. eexists. reflexivity.
Qed.

(** ** The genre menu and the genre buttons *)

Lemma genre_token (g : string) :
  Py.after_underscore ("genre_" ++ g) = Py.Returns g.
Proof. reflexivity. Qed.

Lemma shown_genre_early (ks : list string) (g : string) (i : nat) :
  NoDup ks -> ks !! i = Some g -> In g (firstn 10 ks) -> (i < 10)%nat.
Proof.
  intros Hnd Hi Hin.
  apply list_elem_of_In, elem_of_take in Hin as (j & Hj & Hlt).
  rewrite (NoDup_lookup ks i j g Hnd Hi Hj). exact Hlt.
Qed.

(** C10: the genre menu is one row for each of the first ten names of the
    genre table, in the table's order, and the row that returns to the
    menu.  A name that stands later in the table is on no button, although
    its token parses back to the name and the table still maps it. *)
Theorem genre_menu_offers_first_ten e uid w :
  NoDup (Py.keys (GENRES e)) ->
  let shown := firstn 10 (Py.keys (GENRES e)) in
  let keyboard := (map genre_entry shown ++ [back_to_menu])%list in
  run (handle_menu_button e uid "menu_genres") w
  = (Py.Returns tt,
     record (reply_text choose_genre (Some (InlineKeyboardMarkup keyboard))
               Markdown)
       (record delete (record answer w))) /\
  (length shown <= 10)%nat /\
  length keyboard = S (length shown) /\
  forall i g,
    (10 <= i)%nat -> Py.keys (GENRES e) !! i = Some g ->
    (forall row b, In row keyboard -> In b row ->
                   callback_data b <> "genre_" ++ g) /\
    Py.after_underscore ("genre_" ++ g) = Py.Returns g /\
    is_Some (Py.lookup g (GENRES e)).
Proof.
  intros Hnd shown keyboard.
  split; [reflexivity|].
  split; [unfold shown; rewrite length_take; lia|].
  split; [unfold keyboard; rewrite length_app, length_map; simpl; lia|].
  intros i g Hi Hg. split; [|split].
  - intros row b Hrow Hb Hcb. unfold keyboard in Hrow.
    apply in_app_or in Hrow as [Hrow|[<-|[]]].
    + apply in_map_iff in Hrow as (g' & <- & Hg').
      destruct Hb as [<-|[]]. simpl in Hcb.
      assert (g' = g) as -> by congruence.
      pose proof (shown_genre_early _ _ _ Hnd Hg Hg'). lia.
    + destruct Hb as [<-|[]]. simpl in Hcb. discriminate.
  - apply genre_token.
  - apply lookup_In, list_elem_of_In, list_elem_of_lookup. eauto.
Qed.

(** [tmdb_request] returns, whatever the catalog does. *)
Lemma tmdb_request_returns e endpoint params w :
  exists data, fst (run (tmdb_request e endpoint params) w) = Py.Returns data.
Proof.
  unfold run, tmdb_request.
  destruct (TMDB_API_KEY e) as [[|c key]|]; try (eexists; reflexivity).
  unfold try_except, bind, get_url, emit, lift, ret.
  destruct (catalog e _ _) as [err|status body]; simpl;
    [eexists; reflexivity|].
  unfold raise_for_status, json. simpl.
  destruct ((400 <=? status)%Z && (status <? 600)%Z); simpl;
    [eexists; reflexivity|].
  destruct body; simpl; eexists; reflexivity.
Qed.

Lemma genre_messages_differ (genre_name other : string) :
  genre_invalid genre_name <> genre_no_results other.
Proof. unfold genre_invalid, genre_no_results. simpl. discriminate. Qed.

(** C4: a genre button whose name the table does not map is answered with
    the "invalid genre" text, which is never the "no results" text, and
    nothing is asked of the catalog.  A name the table maps to a truthy id
    makes the handler run the discover request with that id, sorted by
    popularity, and present what comes back: the keyboard of the movies, or
    the "no results" text when there are none. *)
Theorem genre_button_press e name w :
  let w0 := record delete (record answer w) in
  (Py.lookup name (GENRES e) = None ->
   run (handle_genre_button e ("genre_" ++ name)) w
   = (Py.Returns tt,
      record (reply_text (genre_invalid name) (Some create_error_keyboard)
                None) w0) /\
   (forall other, genre_invalid name <> genre_no_results other) /\
   lookups (snd (run (handle_genre_button e ("genre_" ++ name)) w))
   = lookups w) /\
  (forall id,
     Py.lookup name (GENRES e) = Some id -> Py.truthy id = true ->
     let looked :=
       run (tmdb_request e "discover/movie"
              (Some [("with_genres", id);
                     ("sort_by", Py.VStr "popularity.desc")])) w0 in
     exists data,
       fst looked = Py.Returns data /\
       forall movies,
         Py.get data "results" (Py.VList []) = Py.Returns movies ->
         if Py.truthy movies
         then forall reply_markup,
                create_movie_keyboard movies "detail"
                = Py.Returns reply_markup ->
                run (handle_genre_button e ("genre_" ++ name)) w
                = (Py.Returns tt,
                   record (reply_text (genre_films name) (Some reply_markup)
                             Markdown) (snd looked))
         else run (handle_genre_button e ("genre_" ++ name)) w
              = (Py.Returns tt,
                 record (reply_text (genre_no_results name)
                           (Some create_error_keyboard) None) (snd looked))).
Proof.
  intros w0. split.
  - intros Habsent.
    assert (run (handle_genre_button e ("genre_" ++ name)) w
            = (Py.Returns tt,
               record (reply_text (genre_invalid name)
                         (Some create_error_keyboard) None) w0)) as E.
    { unfold run, handle_genre_button, bind, emit, lift. simpl.
      rewrite Habsent. reflexivity. }
    split; [exact E|]. split; [intros other; apply genre_messages_differ|].
    rewrite E. simpl. rewrite lookups_record_reply.
    unfold w0, lookups, record. simpl.
    rewrite !List.filter_app. simpl. rewrite !app_nil_r. reflexivity.
  - intros id Hid Htruthy looked.
    destruct (tmdb_request_returns e "discover/movie"
                (Some [("with_genres", id);
                       ("sort_by", Py.VStr "popularity.desc")]) w0)
      as [data Hdata].
    exists data. split; [exact Hdata|].
    intros movies Hmovies.
    assert (run (handle_genre_button e ("genre_" ++ name)) w
            = run (if negb (Py.truthy movies)
                   then emit (reply_text (genre_no_results name)
                                (Some create_error_keyboard) None)
                   else bind (lift (create_movie_keyboard movies "detail"))
                          (fun reply_markup =>
                             emit (reply_text (genre_films name)
                                     (Some reply_markup) Markdown)))
                (snd looked)) as E.
    { unfold run, handle_genre_button, bind, emit, lift. simpl.
      rewrite Hid, Htruthy. simpl.
      fold w0. unfold looked, run in *.
      destruct (tmdb_request e "discover/movie" _ w0) as [[data'|x] w1];
        simpl in Hdata; [|discriminate].
      injection Hdata as ->. rewrite Hmovies. reflexivity. }
    rewrite E. destruct (Py.truthy movies); simpl.
    + intros reply_markup Hkb. unfold run, bind, lift, emit.
      rewrite Hkb. reflexivity.
    + reflexivity.
Qed.

(** ** The catalog primitive *)

(** C6: with no key configured, with no response from the transport, or
    with a response whose status is an error status, [tmdb_request] returns
    the empty object and raises nothing; an answer of status 200 that holds
    the empty object returns the same value. *)
Theorem tmdb_request_fails_closed e endpoint params w :
  request_fails e endpoint params ->
  fst (run (tmdb_request e endpoint params) w) = Py.Returns (Py.VDict []) /\
  forall e' w',
    answers_nothing e' endpoint params ->
    fst (run (tmdb_request e' endpoint params) w')
    = fst (run (tmdb_request e endpoint params) w).
Proof.
  intros Hfail.
  assert (fst (run (tmdb_request e endpoint params) w)
          = Py.Returns (Py.VDict [])) as E.
  { unfold run, tmdb_request.
    destruct Hfail
      as [[H|H]|api_key err Hkey Hcat|api_key status body Hkey Hcat Hst];
      try (rewrite H; reflexivity); rewrite Hkey;
      (destruct api_key as [|c key]; [reflexivity|]);
      unfold try_except, bind, get_url, emit, lift, ret; rewrite Hcat; simpl.
    - reflexivity.
    - unfold raise_for_status. simpl.
      replace ((400 <=? status)%Z && (status <? 600)%Z) with true
        by (symmetry; apply andb_true_iff; split;
            [apply Z.leb_le|apply Z.ltb_lt]; lia).
      reflexivity. }
  split; [exact E|].
  intros e' w' (api_key & Hkey & Hne & Hcat). rewrite E.
  unfold run, tmdb_request. rewrite Hkey.
  destruct api_key as [|c key]; [congruence|].
  unfold try_except, bind, get_url, emit, lift, ret. rewrite Hcat.
  reflexivity.
Qed.

(** ** The favorites table *)

Section Favorites.
Import Store.


Lemma rows_for_present (t : table) (u m : Z) :
  rows_for t u m <> 0%nat -> existsb (same_pair u m) t = true.
Proof.
  unfold rows_for. induction t as [|r t IH]; simpl; [congruence|].
  destruct (same_pair u m r); simpl; [reflexivity|exact IH].
Qed.

Lemma rows_for_app (t t' : table) (u m : Z) :
  rows_for (t ++ t')%list u m = (rows_for t u m + rows_for t' u m)%nat.
Proof. unfold rows_for. rewrite List.filter_app, length_app. reflexivity. Qed.


End Favorites.


(** C7: the listing is the titles stored for the user, each as often as it
    is stored, in ascending lexicographic order; with no connection it is
    empty. *)
Theorem favorites_listed_in_order (t : Store.table) (u : Z) :
  let listed := Store.get_favorites_from_db true t u in
  StronglySorted Store.title_le listed /\
  listed ≡ₚ map Store.movie_title
              (List.filter (fun r => (Store.user_id r =? u)%Z) t) /\
  Store.get_favorites_from_db false t u = [] /\
  Store.get_favorites_from_db true
    [Store.Row u 603 "Zeta"; Store.Row u 11 "Alpha"] u = ["Alpha"; "Zeta"].
Proof.
  unfold Store.get_favorites_from_db, Store.select_titles. simpl.
  split; [apply StronglySorted_merge_sort; apply _|].
  split; [apply merge_sort_Permutation|].
  split; [reflexivity|].
  rewrite Z.eqb_refl. reflexivity.
Qed.

(** The uniqueness that the table declares is kept by every insert. *)
Lemma add_favorite_keeps_pairs_unique up t u m title :
  (forall u' m', (Store.rows_for t u' m' <= 1)%nat) ->
  forall u' m',
    (Store.rows_for (snd (Store.add_favorite_to_db up t u m title)) u' m'
     <= 1)%nat.
Proof.
  intros Huniq u' m'. unfold Store.add_favorite_to_db.
  destruct up; simpl; [|apply Huniq].
  unfold Store.insert_favorite.
  destruct (negb (Store.in_bigint u) || negb (Store.in_integer m)); simpl;
    [apply Huniq|].
  destruct (Store.varchar 255 title) as [stored|]; simpl; [|apply Huniq].
  destruct (existsb (Store.same_pair u m) t) eqn:E; simpl; [apply Huniq|].
  rewrite rows_for_app. unfold Store.rows_for at 2. simpl.
  destruct (Store.same_pair u' m' (Store.Row u m stored)) eqn:S; simpl;
    [|specialize (Huniq u' m'); lia].
  unfold Store.same_pair in S. simpl in S.
  apply andb_true_iff in S as [Su Sm].
  apply Z.eqb_eq in Su, Sm. subst u' m'.
  destruct (Nat.eq_dec (Store.rows_for t u m) 0%nat) as [E0|Hne];
    [rewrite E0; lia|].
  rewrite (rows_for_present _ _ _ Hne) in E. discriminate.
Qed.


(** ** The actor search *)

(** The state in which the actor prompt leaves user 7. *)
Lemma actor_prompt_sets_state e :
  pending 7 (snd (run (handle_menu_button e 7 "menu_actor") empty_world))
  = Py.VStr "actor".
Proof. reflexivity. Qed.

(** C1 fails on the code: the top match's known-for list holds television
    credits only, the guard sees a list that is not empty, and the reply is
    the heading of a film list over a keyboard with no film on it, not the
    "not found" text. *)
Theorem tv_only_actor_gets_an_empty_listing :
  let e := answering [] (Py.VDict [("results", Py.VList [tv_only_person])]) in
  let asked := snd (run (handle_menu_button e 7 "menu_actor") empty_world) in
  let after := run (handle_text_message e 7 "Bryan Cranston") asked in
  fst after = Py.Returns tt /\
  replies (snd after)
  = (replies asked
     ++ [reply_text (actor_films (Py.VStr "Bryan Cranston"))
           (Some (InlineKeyboardMarkup [menu_entry])) Markdown])%list /\
  actor_films (Py.VStr "Bryan Cranston") <> actor_not_found "Bryan Cranston".
Proof.
  split; [vm_compute; reflexivity|].
  split; [vm_compute; reflexivity|].
  vm_compute. discriminate.
Qed.

(** ** The location share *)

(** C9, as the f-string renders numbers: the link is built from [str(lat)]
    and [str(lon)], so integer coordinates 0 and 0 give a link that holds
    "0,0,15z", and it is the link of the first reply. *)
Theorem location_link_for_integer_zero (w : world) :
  (forall lat lon,
     maps_url lat lon
     = "https://www.google.com/maps/search/bioskop/@"
       ++ Py.str lat ++ "," ++ Py.str lon ++ ",15z" /\
     run (handle_location lat lon) w
     = (Py.Returns tt,
        record (reply_text "Ada lagi yang bisa saya bantu?"
                  (Some (snd create_main_menu)) Markdown)
          (record (sleep 2)
             (record (reply_text (location_received (maps_url lat lon))
                        (Some ReplyKeyboardRemove) None) w)))) /\
  maps_url (Py.VInt 0) (Py.VInt 0)
  = "https://www.google.com/maps/search/bioskop/@0,0,15z" /\
  Py.substring "0,0,15z"
    (location_received (maps_url (Py.VInt 0) (Py.VInt 0))) = true.
Proof.
  split; [intros lat lon; split; reflexivity|].
  split; vm_compute; reflexivity.
Qed.

(** C9, as stated, fails when the coordinates arrive as floats: 0.0 prints
    as "0.0", and neither the link nor the reply holds "0,0,15z". *)
Lemma location_link_for_float_zero :
  maps_url (Py.VFloat "0.0") (Py.VFloat "0.0")
  = "https://www.google.com/maps/search/bioskop/@0.0,0.0,15z" /\
  Py.substring "0,0,15z"
    (location_received (maps_url (Py.VFloat "0.0") (Py.VFloat "0.0")))
  = false.
Proof. split; vm_compute; reflexivity. Qed.

(** C4, as stated, fails for a name the table maps to a falsy id: the guard
    reads the id 0 as no id, the answer is the "invalid genre" text, and no
    request goes out. *)
Lemma genre_with_id_zero_is_invalid :
  let e := answering [("drama", Py.VInt 0)]
             (Py.VDict [("results", Py.VList six_movies)]) in
  Py.lookup "drama" (GENRES e) = Some (Py.VInt 0) /\
  calls (snd (run (handle_genre_button e "genre_drama") empty_world))
  = [answer; delete;
     reply_text (genre_invalid "drama") (Some create_error_keyboard) None].
Proof. split; vm_compute; reflexivity. Qed.

(** What the actor search does with the answer of the person search: with
    no match, or a top match whose known-for list is missing or empty, it
    says "not found"; with a known-for list that is not empty but holds no
    movie, it sends the heading over a keyboard without films. *)
Section ActorSearch.
Variables (e : env) (query_text : string) (w : world).

Let looked : Py.result Py.value * world :=
  run (tmdb_request e "search/person"
         (Some [("query", Py.VStr query_text)]))
    (snd (run (set_args (Py.split query_text)) w)).

Lemma call_search_actor_after_lookup (data : Py.value) :
  fst looked = Py.Returns data ->
  run (call_search_actor e query_text) w
  = run (bind (lift (Py.get data "results" (Py.VList []))) (fun actors =>
         bind (if negb (Py.truthy actors) then ret true
               else bind (lift (Py.rbind (Py.first actors) (fun top =>
                                  Py.get top "known_for" Py.VNone)))
                      (fun known => ret (negb (Py.truthy known))))
           (fun nothing : bool =>
         if nothing
         then emit (reply_text (actor_not_found query_text)
                      (Some create_error_keyboard) None)
         else
           bind (lift (Py.first actors)) (fun actor =>
           bind (lift (Py.getitem actor "name")) (fun name =>
           bind (lift (Py.rbind (Py.get actor "known_for" (Py.VList []))
                         Py.iter)) (fun credits =>
           bind (lift (movies_only credits)) (fun known_for =>
           bind (lift (create_movie_keyboard (Py.VList known_for) "detail"))
             (fun reply_markup =>
           emit (reply_text (actor_films name) (Some reply_markup)
                   Markdown)))))))))
      (snd looked).
Proof.
  subst looked. unfold run, call_search_actor. unfold bind at 1 2. simpl.
  destruct (tmdb_request e "search/person" _ _) as [[data'|x] w1]; simpl;
    [|discriminate].
  intros [= ->]. reflexivity.
Qed.

Lemma actor_not_found_without_credits (data actors : Py.value) :
  fst looked = Py.Returns data ->
  Py.get data "results" (Py.VList []) = Py.Returns actors ->
  Py.truthy actors = false \/
  (exists top known,
     Py.first actors = Py.Returns top /\
     Py.get top "known_for" Py.VNone = Py.Returns known /\
     Py.truthy known = false) ->
  run (call_search_actor e query_text) w
  = (Py.Returns tt,
     record (reply_text (actor_not_found query_text)
               (Some create_error_keyboard) None) (snd looked)).
Proof.
  intros Hdata Hactors Hnone.
  rewrite (call_search_actor_after_lookup data Hdata).
  unfold run, bind, lift, ret. rewrite Hactors.
  destruct (Py.truthy actors) eqn:T; simpl.
  - destruct Hnone as [?|(top & known & Htop & Hknown & F)]; [discriminate|].
    rewrite Htop. simpl. rewrite Hknown, F. reflexivity.
  - reflexivity.
Qed.

Lemma actor_listing_without_movies (data actors top name : Py.value)
    (credits : list Py.value) :
  fst looked = Py.Returns data ->
  Py.get data "results" (Py.VList []) = Py.Returns actors ->
  Py.truthy actors = true ->
  Py.first actors = Py.Returns top ->
  Py.getitem top "known_for" = Py.Returns (Py.VList credits) ->
  credits <> [] ->
  Py.getitem top "name" = Py.Returns name ->
  movies_only credits = Py.Returns [] ->
  run (call_search_actor e query_text) w
  = (Py.Returns tt,
     record (reply_text (actor_films name)
               (Some (InlineKeyboardMarkup [menu_entry])) Markdown)
       (snd looked)).
Proof.
  intros Hdata Hactors T Htop Hknown Hsome Hname Hfilter.
  rewrite (call_search_actor_after_lookup data Hdata).
  unfold run, bind, lift, ret. rewrite Hactors, T. simpl.
  rewrite Htop. simpl.
  destruct top as [| | | | | |d]; try discriminate.
  unfold Py.getitem in Hknown, Hname. unfold Py.get.
  destruct (Py.lookup "known_for" d) as [known|]; [|discriminate].
  injection Hknown as ->.
  destruct credits as [|credit credits]; [congruence|]. simpl.
  unfold Py.getitem.
  destruct (Py.lookup "name" d) as [name'|]; [|discriminate].
  injection Hname as ->. simpl in Hfilter |- *. rewrite Hfilter.
  reflexivity.
Qed.

End ActorSearch.

(** ** The genre table as loaded *)

Section GenreTable.
Import Py.

Lemma keys_setitem (k x : string) (v : value) (d : dict) :
  In x (keys (setitem k v d)) <-> x = k \/ In x (keys d).
Proof.
  induction d as [|[k' v'] d IH]; simpl.
  - intuition.
  - destruct (String.eqb_spec k' k) as [->|Hne]; simpl.
    + intuition.
    + unfold keys in IH. rewrite IH. intuition.
Qed.

Lemma setitem_keeps_keys_distinct (k : string) (v : value) (d : dict) :
  NoDup (keys d) -> NoDup (keys (setitem k v d)).
Proof.
  induction d as [|[k' v'] d IH]; simpl; intros Hnd.
  - repeat constructor. intros H. inversion H.
  - apply NoDup_cons in Hnd as [Hnotin Hnd].
    destruct (String.eqb_spec k' k) as [->|Hne]; simpl.
    + apply NoDup_cons. split; assumption.
    + apply NoDup_cons. split; [|apply IH, Hnd].
      rewrite list_elem_of_In. fold (keys (setitem k v d)).
      rewrite keys_setitem. rewrite list_elem_of_In in Hnotin.
      intros [->|H]; [congruence|exact (Hnotin H)].
Qed.

Lemma update_keeps_keys_distinct (other d : dict) :
  NoDup (keys d) -> NoDup (keys (update d other)).
Proof.
  unfold update. revert d.
  induction other as [|[k v] other IH]; simpl; intros d Hnd; [exact Hnd|].
  apply IH, setitem_keeps_keys_distinct, Hnd.
Qed.

(** Whatever the catalog answers, the table [load_genres] returns has
    distinct names. *)
Lemma load_genres_keys_distinct (e : env) (w : world) (genres : dict) :
  fst (run (load_genres e) w) = Returns genres -> NoDup (keys genres).
Proof.
  unfold run, load_genres, bind, lift, ret.
  destruct (tmdb_request e "genre/movie/list" None w) as [[data|x] w1];
    simpl; [|discriminate].
  destruct (truthy data); simpl; [|intros [= <-]; constructor].
  destruct (contains data "genres") as [[|]|x]; simpl;
    [|intros [= <-]; constructor|discriminate].
  destruct (rbind (getitem data "genres") iter) as [l|x]; simpl;
    [|discriminate].
  destruct (for_each _ l) as [entries|x]; simpl; [|discriminate].
  intros [= <-]. apply update_keeps_keys_distinct. constructor.
Qed.

End GenreTable.

(** ** Instances *)

Lemma text_without_intent_shows_menu_witness :
  Py.lookup "state" (the_user_data 7 empty_world) = None /\
  calls (snd (run (handle_text_message unreachable 7 "halo") empty_world))
  = [reply_text not_understood (Some (snd create_main_menu)) None] /\
  lookups (snd (run (handle_text_message unreachable 7 "halo") empty_world))
  = [].
Proof.
  split; [reflexivity|].
  exact (proj2 (text_without_intent_shows_menu unreachable 7 "halo"
                  empty_world eq_refl)).
Defined.

Lemma keyboard_of_more_than_five_witness :
  (5 < length six_movies)%nat /\
  Forall (fun movie => is_movie_summary movie = true) (firstn 5 six_movies) /\
  exists entries,
    create_movie_keyboard (Py.VList six_movies) "detail"
    = Py.Returns (InlineKeyboardMarkup (entries ++ [menu_entry])%list) /\
    length entries = 5%nat.
Proof.
  assert (5 < length six_movies)%nat as Hlen by (simpl; lia).
  assert (Forall (fun movie => is_movie_summary movie = true)
            (firstn 5 six_movies)) as Hall
    by (repeat constructor).
  split; [exact Hlen|]. split; [exact Hall|].
  destruct (keyboard_of_more_than_five six_movies "detail" Hlen)
    as [Hshape Hrendered].
  destruct (Hrendered Hall) as [reply_markup Hkb].
  destruct (Hshape reply_markup Hkb) as (entries & -> & Hfive & _).
  exists entries. split; [exact Hkb|exact Hfive].
Defined.

Example keyboard_of_six_movies :
  create_movie_keyboard (Py.VList six_movies) "detail"
  = Py.Returns
      (InlineKeyboardMarkup
         [[InlineKeyboardButton "Inception (2010)" "detail_27205"];
          [InlineKeyboardButton "Interstellar (2014)" "detail_157336"];
          [InlineKeyboardButton "The Dark Knight (2008)" "detail_155"];
          [InlineKeyboardButton "The Prestige (2006)" "detail_1124"];
          [InlineKeyboardButton "Memento (2000)" "detail_77"];
          menu_entry]).
Proof. vm_compute. reflexivity. Qed.

Lemma genre_menu_offers_first_ten_witness :
  NoDup (Py.keys twelve_genres) /\
  (forall row b,
     In row (map genre_entry (firstn 10 (Py.keys twelve_genres))
             ++ [back_to_menu])%list ->
     In b row -> callback_data b <> "genre_horror") /\
  is_Some (Py.lookup "horror" twelve_genres).
Proof.
  assert (NoDup (Py.keys twelve_genres)) as Hnd
    by (apply (bool_decide_unpack (NoDup (Py.keys twelve_genres)));
        vm_compute; exact I).
  split; [exact Hnd|].
  destruct (genre_menu_offers_first_ten (answering twelve_genres (Py.VDict []))
              7 empty_world Hnd) as (_ & _ & _ & Hlate).
  destruct (Hlate 10%nat "horror" (le_n 10) eq_refl) as (Hoff & _ & Hmapped).
  split; [exact Hoff|exact Hmapped].
Defined.

Lemma genre_button_press_witness :
  let e := answering twelve_genres
             (Py.VDict [("results", Py.VList six_movies)]) in
  (Py.lookup "western" (GENRES e) = None /\
   calls (snd (run (handle_genre_button e "genre_western") empty_world))
   = [answer; delete;
      reply_text (genre_invalid "western") (Some create_error_keyboard)
        None]) /\
  (Py.lookup "horror" (GENRES e) = Some (Py.VInt 27) /\
   Py.truthy (Py.VInt 27) = true /\
   exists reply_markup,
     calls (snd (run (handle_genre_button e "genre_horror") empty_world))
     = [answer; delete;
        requests_get "https://api.themoviedb.org/3/discover/movie"
          [("api_key", Py.VStr "key"); ("language", Py.VStr "en-US");
           ("with_genres", Py.VInt 27);
           ("sort_by", Py.VStr "popularity.desc")];
        reply_text (genre_films "horror") (Some reply_markup) Markdown]).
Proof.
  intros e.
  destruct (genre_button_press e "western" empty_world) as [Habsent _].
  destruct (genre_button_press e "horror" empty_world) as [_ Hpresent].
  split.
  - split; [reflexivity|].
    destruct (Habsent eq_refl) as (E & _ & _).
    change ("genre_" ++ "western") with "genre_western" in E.
    rewrite E. reflexivity.
  - split; [reflexivity|]. split; [reflexivity|].
    destruct (Hpresent (Py.VInt 27) eq_refl eq_refl) as (data & Hdata & Hrun).
    injection Hdata as <-.
    eexists.
    change ("genre_" ++ "horror") with "genre_horror" in Hrun.
    rewrite (Hrun (Py.VList six_movies) eq_refl _ keyboard_of_six_movies).
    reflexivity.
Defined.

Lemma tmdb_request_fails_closed_witness :
  request_fails unconfigured "search/movie" None /\
  request_fails unreachable "search/movie" None /\
  request_fails (refusing 404) "search/movie" None /\
  fst (run (tmdb_request unconfigured "search/movie" None) empty_world)
  = Py.Returns (Py.VDict []) /\
  fst (run (tmdb_request unreachable "search/movie" None) empty_world)
  = Py.Returns (Py.VDict []) /\
  fst (run (tmdb_request (refusing 404) "search/movie" None) empty_world)
  = Py.Returns (Py.VDict []).
Proof.
  assert (request_fails unconfigured "search/movie" None) as H1
    by (apply key_not_configured; left; reflexivity).
  assert (request_fails unreachable "search/movie" None) as H2
    by (apply (no_response _ _ _ "key" Py.ConnectionError); reflexivity).
  assert (request_fails (refusing 404) "search/movie" None) as H3
    by (apply (error_status _ _ _ "key" 404 None); [reflexivity..|lia]).
  split; [exact H1|]. split; [exact H2|]. split; [exact H3|].
  split; [|split].
  - exact (proj1 (tmdb_request_fails_closed _ _ _ empty_world H1)).
  - exact (proj1 (tmdb_request_fails_closed _ _ _ empty_world H2)).
  - exact (proj1 (tmdb_request_fails_closed _ _ _ empty_world H3)).
Defined.


(** * Further properties *)

(** ** The favorites table, beyond one pair *)

Section MoreFavorites.
Import Store.

Lemma filter_respects_order {A} (f : A -> bool) (l l' : list A) :
  l ≡ₚ l' -> List.filter f l ≡ₚ List.filter f l'.
Proof.
  induction 1 as [|x l l' _ IH|x y l|l l' l'' _ IH1 _ IH2]; simpl.
  - reflexivity.
  - destruct (f x); [constructor|]; exact IH.
  - destruct (f x), (f y); try reflexivity. constructor.
  - etransitivity; eassumption.
Qed.


Lemma select_titles_unique (l : list string) (t : table) (u : Z) :
  StronglySorted title_le l ->
  l ≡ₚ map movie_title (List.filter (fun r => (user_id r =? u)%Z) t) ->
  l = select_titles t u.
Proof.
  intros Hsorted Hperm. unfold select_titles.
  apply (StronglySorted_unique title_le).
  - exact Hsorted.
  - apply StronglySorted_merge_sort; apply _.
  - rewrite merge_sort_Permutation. exact Hperm.
Qed.

End MoreFavorites.


Lemma replay_from_keeps_pairs_unique (requests : list add_request)
    (t : Store.table) :
  (forall u m, (Store.rows_for t u m <= 1)%nat) ->
  forall u m,
    (Store.rows_for
       (fold_left
          (fun t '(up, (u, m, title)) =>
             snd (Store.add_favorite_to_db up t u m title))
          requests t) u m <= 1)%nat.
Proof.
  revert t. induction requests as [|[up [[u0 m0] title]] requests IH];
    simpl; intros t Huniq; [exact Huniq|].
  apply IH. apply add_favorite_keeps_pairs_unique. exact Huniq.
Qed.

(** X2: the table never holds two rows for one (user, movie) pair: whatever
    calls of [add_favorite_to_db] are made on the table that
    [setup_database] created empty, with the connection up or down, with
    values that fit the columns or not, each pair has at most one row. *)
Theorem replayed_table_keeps_pairs_unique (requests : list add_request)
    (u m : Z) :
  (Store.rows_for (replay requests) u m <= 1)%nat.
Proof.
  apply replay_from_keeps_pairs_unique. intros u' m'.
  unfold Store.rows_for. simpl. lia.
Qed.



(** X4: the listing does not depend on the order in which the rows were
    inserted: two tables with the same rows in any order list the same
    titles in the same order for every user. *)
Theorem listing_ignores_row_order up (t t' : Store.table) (u : Z) :
  t ≡ₚ t' ->
  Store.get_favorites_from_db up t u = Store.get_favorites_from_db up t' u.
Proof.
  intros Hperm. unfold Store.get_favorites_from_db.
  destruct (Store.get_db_connection up); [|reflexivity].
  apply select_titles_unique.
  - apply StronglySorted_merge_sort; apply _.
  - unfold Store.select_titles. rewrite merge_sort_Permutation.
    apply Permutation_map, filter_respects_order. exact Hperm.
Qed.

(** ** The catalog primitive, beyond its failures *)

Section MoreDicts.
Import Py.

Lemma lookup_setitem_ne (k k' : string) (v : value) (d : dict) :
  k <> k' -> lookup k' (setitem k v d) = lookup k' d.
Proof.
  intros Hne. induction d as [|[k0 v0] d IH]; simpl.
  - destruct (String.eqb_spec k k'); [contradiction|reflexivity].
  - destruct (String.eqb_spec k0 k) as [->|Hk]; simpl.
    + destruct (String.eqb_spec k k'); [contradiction|reflexivity].
    + destruct (String.eqb k0 k'); [reflexivity|exact IH].
Qed.

Lemma lookup_absent (k : string) (d : dict) :
  ~ In k (keys d) -> lookup k d = None.
Proof.
  induction d as [|[k' v] d IH]; simpl; [reflexivity|].
  intros H. destruct (String.eqb_spec k' k) as [->|_]; [tauto|].
  apply IH. tauto.
Qed.

(** After [d.update(other)] a key of [other] reads its value there, any
    other key reads what it read in [d]. *)
Lemma lookup_update (k : string) (other d : dict) :
  NoDup (keys other) ->
  lookup k (update d other)
  = match lookup k other with
    | Some v => Some v
    | None => lookup k d
    end.
Proof.
  unfold update. revert d.
  induction other as [|[k1 v1] other IH]; simpl; intros d Hnd;
    [reflexivity|].
  apply NoDup_cons in Hnd as [Hnotin Hnd]. rewrite IH by exact Hnd.
  destruct (String.eqb_spec k1 k) as [->|Hne]; simpl.
  - rewrite lookup_absent by (rewrite <- list_elem_of_In; exact Hnotin).
    apply lookup_setitem.
  - rewrite lookup_setitem_ne by exact Hne. reflexivity.
Qed.




End MoreDicts.

(** With a key, [tmdb_request] sends one request and returns what
    [answer_of] makes of the exchange. *)
Lemma tmdb_request_with_key e endpoint params w (c : ascii) (key : string) :
  TMDB_API_KEY e = Some (String c key) ->
  run (tmdb_request e endpoint params) w
  = (Py.Returns
       (answer_of (catalog e (api_url endpoint)
                     (base_params (String c key) params))),
     record (requests_get (api_url endpoint)
               (base_params (String c key) params)) w).
Proof.
  intros Hkey. unfold run, tmdb_request. rewrite Hkey.
  unfold try_except, bind, get_url, emit, lift, ret, answer_of.
  destruct (catalog e _ _) as [err|status body]; simpl; [reflexivity|].
  unfold raise_for_status, json. simpl.
  destruct ((400 <=? status)%Z && (status <? 600)%Z); simpl; [reflexivity|].
  destruct body; reflexivity.
Qed.

Lemma tmdb_request_without_key e endpoint params w :
  is_set (TMDB_API_KEY e) = false ->
  run (tmdb_request e endpoint params) w = (Py.Returns (Py.VDict []), w).
Proof.
  unfold run, tmdb_request.
  destruct (TMDB_API_KEY e) as [[|c key]|]; simpl; try reflexivity.
  discriminate.
Qed.

(** A request that fails, in any of the three ways, returns the empty
    object. *)
Lemma tmdb_request_failed e endpoint params w :
  request_fails e endpoint params ->
  fst (run (tmdb_request e endpoint params) w) = Py.Returns (Py.VDict []).
Proof.
  intros [[H|H]|api_key err Hkey Hcat|api_key status body Hkey Hcat Hst].
  - rewrite tmdb_request_without_key by (rewrite H; reflexivity).
    reflexivity.
  - rewrite tmdb_request_without_key by (rewrite H; reflexivity).
    reflexivity.
  - destruct api_key as [|c key].
    + rewrite tmdb_request_without_key by (rewrite Hkey; reflexivity).
      reflexivity.
    + rewrite (tmdb_request_with_key _ _ _ _ c key Hkey), Hcat. reflexivity.
  - destruct api_key as [|c key].
    + rewrite tmdb_request_without_key by (rewrite Hkey; reflexivity).
      reflexivity.
    + rewrite (tmdb_request_with_key _ _ _ _ c key Hkey), Hcat. simpl.
      replace ((400 <=? status)%Z && (status <? 600)%Z) with true
        by (symmetry; apply andb_true_iff; split;
            [apply Z.leb_le|apply Z.ltb_lt]; lia).
      reflexivity.
Qed.

Lemma tmdb_request_on_response e endpoint params w api_key status
    body :
  TMDB_API_KEY e = Some api_key ->
  api_key <> "" ->
  catalog e (api_url endpoint) (base_params api_key params)
  = Response status body ->
  ~ (400 <= status < 600)%Z ->
  run (tmdb_request e endpoint params) w
  = (Py.Returns (match body with
                 | Some v => v
                 | None => Py.VDict []
                 end),
     record (requests_get (api_url endpoint) (base_params api_key params)) w).
Proof.
  intros Hkey Hne Hcat Hstatus.
  destruct api_key as [|c key]; [congruence|].
  rewrite (tmdb_request_with_key _ _ _ _ c key Hkey), Hcat. simpl.
  replace ((400 <=? status)%Z && (status <? 600)%Z) with false;
    [reflexivity|].
  symmetry. apply andb_false_iff.
  destruct (Z.leb_spec 400 status); [|left; reflexivity].
  right. apply Z.ltb_ge. lia.
Qed.

(** X5: a response whose status is outside 400..599 is passed on: with a
    key configured, [tmdb_request] returns the decoded body whatever that
    status is (200, but a 301 or a 600 as well), the empty object when the
    body is not JSON, and it has sent exactly the one request for
    [https://api.themoviedb.org/3/<endpoint>]. *)
Theorem tmdb_request_passes_the_answer e endpoint params w api_key status
    body :
  TMDB_API_KEY e = Some api_key ->
  api_key <> "" ->
  catalog e (api_url endpoint) (base_params api_key params)
  = Response status body ->
  ~ (400 <= status < 600)%Z ->
  run (tmdb_request e endpoint params) w
  = (Py.Returns (match body with
                 | Some v => v
                 | None => Py.VDict []
                 end),
     record (requests_get ("https://api.themoviedb.org/3/" ++ endpoint)
               (base_params api_key params)) w).
Proof.
  intros Hkey Hne Hcat Hstatus.
  exact (tmdb_request_on_response e endpoint params w api_key status
           body Hkey Hne Hcat Hstatus).
Qed.

(** X6: [tmdb_request] never retries and never raises: it returns a value,
    and the world afterwards is the one before with at most one call
    added, the request; nothing else changes.  Without a key no request
    is sent at all. *)
Theorem tmdb_request_asks_at_most_once e endpoint params w :
  (exists data,
     fst (run (tmdb_request e endpoint params) w) = Py.Returns data) /\
  snd (run (tmdb_request e endpoint params) w)
  = (if is_set (TMDB_API_KEY e)
     then record (requests_get (api_url endpoint)
                    (base_params
                       (match TMDB_API_KEY e with
                        | Some api_key => api_key
                        | None => ""
                        end) params)) w
     else w).
Proof.
  destruct (TMDB_API_KEY e) as [[|c key]|] eqn:Hkey.
  - rewrite tmdb_request_without_key by (rewrite Hkey; reflexivity).
    simpl. eauto.
  - rewrite (tmdb_request_with_key _ _ _ _ c key Hkey). simpl. eauto.
  - rewrite tmdb_request_without_key by (rewrite Hkey; reflexivity).
    simpl. eauto.
Qed.

(** X7: the query parameters of a request are the caller's over the two
    defaults: a key the caller passes reads the caller's value (also for
    [language] or [api_key]), and otherwise [api_key] is the configured key
    and [language] is "en-US"; nothing else is sent. *)
Theorem base_params_merge (api_key : string) (params : Py.dict) (k : string) :
  NoDup (Py.keys params) ->
  Py.lookup k (base_params api_key (Some params))
  = match Py.lookup k params with
    | Some v => Some v
    | None =>
        if String.eqb k "api_key" then Some (Py.VStr api_key)
        else if String.eqb k "language" then Some (Py.VStr "en-US")
        else None
    end.
Proof.
  intros Hnd.
  assert (Py.lookup k
            [("api_key", Py.VStr api_key); ("language", Py.VStr "en-US")]
          = if String.eqb k "api_key" then Some (Py.VStr api_key)
            else if String.eqb k "language" then Some (Py.VStr "en-US")
            else None) as Hdefaults.
  { unfold Py.lookup.
    destruct (String.eqb_spec "api_key" k) as [<-|H1]; [reflexivity|].
    destruct (String.eqb_spec k "api_key") as [->|_]; [congruence|].
    destruct (String.eqb_spec "language" k) as [<-|H2]; [reflexivity|].
    destruct (String.eqb_spec k "language") as [->|_]; [congruence|].
    reflexivity. }
  unfold base_params. destruct params as [|kv more].
  - exact Hdefaults.
  - rewrite lookup_update by exact Hnd.
    destruct (Py.lookup k (kv :: more)); [reflexivity|exact Hdefaults].
Qed.

(** ** Loading the genre table *)

Lemma load_genres_after_request e w :
  run (load_genres e) w
  = run (let data :=
           match fst (run (tmdb_request e "genre/movie/list" None) w) with
           | Py.Returns data => data
           | Py.Raises _ => Py.VNone
           end in
         if Py.truthy data
         then
           bind (lift (contains data "genres")) (fun has : bool =>
           if has
           then
             bind (lift (Py.rbind (Py.getitem data "genres") Py.iter))
               (fun genres =>
             bind (lift (Py.for_each (fun genre =>
               Py.rbind (Py.getitem genre "name") (fun name =>
               Py.rbind (lower_of name) (fun key =>
               Py.rbind (Py.getitem genre "id") (fun id =>
               Py.Returns (key, id))))) genres)) (fun entries =>
             ret (Py.update [] entries)))
           else ret [])
         else ret [])
      (snd (run (tmdb_request e "genre/movie/list" None) w)).
Proof.
  destruct (tmdb_request_returns e "genre/movie/list" None w) as [data Hdata].
  unfold run in *. unfold load_genres. unfold bind at 1.
  destruct (tmdb_request e "genre/movie/list" None w) as [[data'|x] w1];
    simpl in Hdata; [|discriminate].
  reflexivity.
Qed.


Lemma load_genres_empty e w :
  (request_fails e "genre/movie/list" None ->
   fst (run (load_genres e) w) = Py.Returns []) /\
  (forall api_key status d,
     TMDB_API_KEY e = Some api_key -> api_key <> "" ->
     catalog e (api_url "genre/movie/list") (base_params api_key None)
     = Response status (Some (Py.VDict d)) ->
     ~ (400 <= status < 600)%Z ->
     Py.lookup "genres" d = None ->
     fst (run (load_genres e) w) = Py.Returns []).
Proof.
  split.
  - intros Hfail. rewrite load_genres_after_request.
    rewrite (tmdb_request_failed _ _ _ w Hfail). reflexivity.
  - intros api_key status d Hkey Hne Hcat Hstatus Hnone.
    rewrite load_genres_after_request.
    rewrite (tmdb_request_on_response _ _ _ w _ _ _ Hkey Hne Hcat
               Hstatus).
    simpl. destruct d as [|kv d]; [reflexivity|].
    unfold run, bind, lift, ret, contains. cbn -[Py.lookup].
    rewrite Hnone. reflexivity.
Qed.

(** X8: when the request for the genre list fails (no key, no response, an
    error status), or is answered by an object without a "genres" entry,
    [load_genres] returns the empty table and raises nothing. *)
Theorem load_genres_without_a_list e w :
  (request_fails e "genre/movie/list" None ->
   fst (run (load_genres e) w) = Py.Returns []) /\
  (forall api_key status d,
     TMDB_API_KEY e = Some api_key -> api_key <> "" ->
     catalog e (api_url "genre/movie/list") (base_params api_key None)
     = Response status (Some (Py.VDict d)) ->
     ~ (400 <= status < 600)%Z ->
     Py.lookup "genres" d = None ->
     fst (run (load_genres e) w) = Py.Returns []).
Proof. exact (load_genres_empty e w). Qed.


(** ** Start-up *)

Lemma main_when_configured BOT_TOKEN DATABASE_URL e db w :
  forallb is_set [BOT_TOKEN; TMDB_API_KEY e; DATABASE_URL] = true ->
  run (main BOT_TOKEN DATABASE_URL e db) w
  = run (bind (load_genres e) (fun genres =>
           ret (Some (Env (TMDB_API_KEY e) genres (catalog e)
                        (database_up e),
                      setup_database (database_up e) db)))) w.
Proof. intros H. unfold run, main. rewrite H. reflexivity. Qed.

(** X10: with the bot token, the API key or the database URL missing or
    empty, [main] returns without starting anything: no request is sent,
    and no process results. *)
Theorem main_needs_every_setting BOT_TOKEN DATABASE_URL e db w :
  is_set BOT_TOKEN = false \/ is_set (TMDB_API_KEY e) = false \/
  is_set DATABASE_URL = false ->
  run (main BOT_TOKEN DATABASE_URL e db) w = (Py.Returns None, w).
Proof.
  intros H. unfold run, main.
  replace (forallb is_set [BOT_TOKEN; TMDB_API_KEY e; DATABASE_URL])
    with false; [reflexivity|].
  symmetry. simpl. destruct H as [-> | [-> | ->]]; simpl;
    rewrite ?andb_false_r; reflexivity.
Qed.

(** X11: a process that [main] started has what the handlers rely on: the
    API key is configured, so each [tmdb_request] of a handler does send
    its request; the names of the genre table are distinct; the catalog
    and the database are the ones [main] saw; and when the database was
    reachable the table exists, with the rows it had if it existed
    before. *)
Theorem started_process_is_configured BOT_TOKEN DATABASE_URL e db w e' db' :
  fst (run (main BOT_TOKEN DATABASE_URL e db) w) = Py.Returns (Some (e', db')) ->
  is_set (TMDB_API_KEY e') = true /\
  NoDup (Py.keys (GENRES e')) /\
  catalog e' = catalog e /\
  database_up e' = database_up e /\
  (database_up e = true ->
   db' = Some (match db with Some t => t | None => [] end)) /\
  (database_up e = false -> db' = db) /\
  forall endpoint params w',
    lookups (snd (run (tmdb_request e' endpoint params) w'))
    = (lookups w'
       ++ [requests_get (api_url endpoint)
             (base_params (match TMDB_API_KEY e' with
                           | Some api_key => api_key
                           | None => ""
                           end) params)])%list.
Proof.
  intros Hrun.
  destruct (forallb is_set [BOT_TOKEN; TMDB_API_KEY e; DATABASE_URL])
    eqn:Hset.
  - rewrite (main_when_configured _ _ _ _ _ Hset) in Hrun.
    unfold run, bind, ret in Hrun.
    pose proof (load_genres_keys_distinct e w) as Hnd. unfold run in Hnd.
    destruct (load_genres e w) as [[genres|x] w1]; simpl in Hrun;
      [|discriminate].
    injection Hrun as <- <-. simpl.
    simpl in Hset. apply andb_true_iff in Hset as [_ Hset].
    apply andb_true_iff in Hset as [Hkey _].
    split; [exact Hkey|]. split; [apply Hnd; reflexivity|].
    split; [reflexivity|]. split; [reflexivity|].
    split; [intros ->; destruct db; reflexivity|].
    split; [intros ->; reflexivity|].
    intros endpoint params w'.
    destruct (TMDB_API_KEY e) as [[|c key]|] eqn:Ek; try discriminate.
    rewrite (tmdb_request_with_key
               (Env (Some (String c key)) genres (catalog e) (database_up e))
               endpoint params w' c key eq_refl).
    unfold lookups, record. simpl. rewrite List.filter_app. reflexivity.
  - exfalso. unfold run, main in Hrun. rewrite Hset in Hrun. discriminate.
Qed.

(** X12: when every setting is there but the request for the genre list
    fails at start-up, the process starts all the same, with an empty
    genre table, which it keeps: the genre menu then offers only the row
    that returns to the menu, and every genre button is answered with the
    "invalid genre" text. *)
Theorem start_without_catalog_has_no_genres BOT_TOKEN DATABASE_URL e db w :
  forallb is_set [BOT_TOKEN; TMDB_API_KEY e; DATABASE_URL] = true ->
  request_fails e "genre/movie/list" None ->
  exists e' db',
    fst (run (main BOT_TOKEN DATABASE_URL e db) w)
    = Py.Returns (Some (e', db')) /\
    GENRES e' = [] /\
    (forall uid w',
       run (handle_menu_button e' uid "menu_genres") w'
       = (Py.Returns tt,
          record (reply_text choose_genre
                    (Some (InlineKeyboardMarkup [back_to_menu])) Markdown)
            (record delete (record answer w')))) /\
    (forall name w',
       run (handle_genre_button e' ("genre_" ++ name)) w'
       = (Py.Returns tt,
          record (reply_text (genre_invalid name)
                    (Some create_error_keyboard) None)
            (record delete (record answer w')))).
Proof.
  intros Hset Hfail.
  pose proof (proj1 (load_genres_empty e w) Hfail) as Hload.
  rewrite (main_when_configured _ _ _ _ _ Hset).
  unfold run, bind, ret in *.
  destruct (load_genres e w) as [[genres|x] w1]; simpl in Hload;
    [|discriminate].
  injection Hload as ->. simpl.
  eexists. eexists. split; [reflexivity|]. split; [reflexivity|].
  split; intros; reflexivity.
Qed.

(** ** The result keyboard, beyond five entries *)

Section MoreKeyboard.
Import Py.

Lemma for_each_raises {A B} (f : A -> result B) (l : list A) (x : exn) :
  for_each f l = Raises x -> exists a x', In a l /\ f a = Raises x'.
Proof.
  induction l as [|a l IH]; simpl; [discriminate|].
  destruct (f a) as [b|x0] eqn:E; simpl.
  - destruct (for_each f l) as [bs|x1]; simpl; [discriminate|].
    intros H. destruct (IH H) as (a' & x' & Hin & Hx). eauto.
  - intros _. eauto.
Qed.

Lemma for_each_stops {A B} (f : A -> result B) (good more : list A) (bad : A)
    (x : exn) :
  Forall (fun a => exists b, f a = Returns b) good ->
  f bad = Raises x ->
  for_each f (good ++ bad :: more) = Raises x.
Proof.
  intros Hgood Hbad. induction Hgood as [|a good [b Hb] _ IH]; simpl.
  - rewrite Hbad. reflexivity.
  - rewrite Hb. simpl. rewrite IH. reflexivity.
Qed.

End MoreKeyboard.

(** X13: a keyboard never shows more than five movies and never reads past
    the fifth: rendering a sequence gives what rendering its first five
    entries gives.  When a keyboard is rendered it has one row per movie
    shown, then the menu row; for the empty sequence it is the menu row
    alone.  Rendering raises only when one of the first five entries is no
    movie summary. *)
Theorem keyboard_shows_at_most_five (movies : list Py.value)
    (callback_prefix : string) :
  create_movie_keyboard (Py.VList movies) callback_prefix
  = create_movie_keyboard (Py.VList (firstn 5 movies)) callback_prefix /\
  create_movie_keyboard (Py.VList []) callback_prefix
  = Py.Returns (InlineKeyboardMarkup [menu_entry]) /\
  match create_movie_keyboard (Py.VList movies) callback_prefix with
  | Py.Returns (InlineKeyboardMarkup keyboard) =>
      length keyboard = S (min 5 (length movies)) /\
      last keyboard = Some menu_entry
  | Py.Returns _ => False
  | Py.Raises _ =>
      exists movie,
        In movie (firstn 5 movies) /\ is_movie_summary movie = false
  end.
Proof.
  split; [|split].
  - rewrite !create_movie_keyboard_list, take_take. reflexivity.
  - reflexivity.
  - rewrite create_movie_keyboard_list.
    destruct (Py.for_each _ _) as [entries|x] eqn:Hrun; unfold Py.rbind.
    + split; [|apply last_snoc].
      rewrite length_app.
      rewrite <- (Forall2_length _ _ _ (for_each_rows _ _ _ Hrun)).
      rewrite length_take. change (length [menu_entry]) with 1%nat. lia.
    + destruct (for_each_raises _ _ _ Hrun) as (movie & x' & Hin & Hx).
      exists movie. split; [exact Hin|].
      destruct (is_movie_summary movie) eqn:Hs; [|reflexivity].
      destruct (movie_entry_summary callback_prefix movie Hs) as [entry E].
      congruence.
Qed.


(** X15: one malformed entry among the movies shown costs the whole
    keyboard: when an object before the sixth place lacks "id", or has it
    and lacks "title", and the entries before it are movie summaries,
    rendering raises [KeyError] for that key and returns no keyboard. *)
Theorem keyboard_with_a_malformed_entry (good rest : list Py.value)
    (d : Py.dict) (callback_prefix : string) :
  (length good < 5)%nat ->
  Forall (fun movie => is_movie_summary movie = true) good ->
  Py.lookup "id" d = None \/ Py.lookup "title" d = None ->
  create_movie_keyboard (Py.VList (good ++ Py.VDict d :: rest))
    callback_prefix
  = Py.Raises (Py.KeyError (match Py.lookup "id" d with
                            | None => "id"
                            | Some _ => "title"
                            end)).
Proof.
  intros Hlen Hgood Hbad. rewrite create_movie_keyboard_list.
  rewrite take_app_ge by lia.
  replace (5 - length good)%nat with (S (4 - length good)) by lia.
  simpl. erewrite for_each_stops; [reflexivity| |].
  - eapply Forall_impl; [exact Hgood|]. simpl. intros movie Hm.
    exact (movie_entry_summary callback_prefix movie Hm).
  - unfold movie_entry, Py.getitem.
    destruct (Py.lookup "id" d) as [id|]; simpl; [|reflexivity].
    destruct Hbad as [? | ->]; [discriminate|reflexivity].
Qed.

(** ** Every button finds its handler *)

Lemma create_movie_keyboard_shape (movies : Py.value)
    (callback_prefix : string) (reply_markup : markup) :
  create_movie_keyboard movies callback_prefix = Py.Returns reply_markup ->
  exists shown entries,
    reply_markup = InlineKeyboardMarkup (entries ++ [menu_entry])%list /\
    Forall2 (fun movie entry =>
               movie_entry callback_prefix movie = Py.Returns entry)
      shown entries.
Proof.
  unfold create_movie_keyboard.
  destruct (Py.rbind (Py.slice_to 5 movies) Py.iter) as [shown|];
    [|discriminate].
  simpl.
  destruct (Py.for_each _ shown) as [entries|] eqn:Hrun; [|discriminate].
  simpl. intros [= <-]. exists shown, entries.
  split; [reflexivity|exact (for_each_rows _ _ _ Hrun)].
Qed.

Lemma movie_buttons (callback_prefix : string) (shown : list Py.value)
    (entries : list (list button)) (b : button) :
  Forall2 (fun movie entry =>
             movie_entry callback_prefix movie = Py.Returns entry)
    shown entries ->
  In b (concat entries) ->
  exists tail, callback_data b = callback_prefix ++ "_" ++ tail.
Proof.
  induction 1 as [|movie entry shown entries Hentry _ IH]; simpl.
  - tauto.
  - intros Hin. apply in_app_or in Hin as [Hin|Hin]; [|exact (IH Hin)].
    destruct (movie_entry_shape _ _ _ Hentry)
      as (title & year & id & _ & _ & ->).
    destruct Hin as [<-|[]]. simpl. eauto.
Qed.

(** X16: no button the bot sends is dead.  By the patterns [main]
    registers, every button of a rendered movie keyboard goes to
    [show_movie_details] when the prefix is "detail" and to
    [save_favorite_movie] when it is "save", but for the button of the menu
    row, which goes to [handle_menu_button]; every button of the genre menu
    goes to [handle_genre_button]; and the buttons of the main menu, of the
    error keyboard and of the return row go to [handle_menu_button] with an
    action it has a branch for. *)
Theorem every_button_is_routed :
  (forall movies reply_markup b,
     create_movie_keyboard movies "detail" = Py.Returns reply_markup ->
     In b (buttons_of reply_markup) ->
     Route.callback (callback_data b)
     = Some (if String.eqb (callback_data b) "menu_menu"
             then Route.handle_menu_button
             else Route.show_movie_details)) /\
  (forall movies reply_markup b,
     create_movie_keyboard movies "save" = Py.Returns reply_markup ->
     In b (buttons_of reply_markup) ->
     Route.callback (callback_data b)
     = Some (if String.eqb (callback_data b) "menu_menu"
             then Route.handle_menu_button
             else Route.save_favorite_movie)) /\
  (forall g b,
     In b (genre_entry g) ->
     Route.callback (callback_data b) = Some Route.handle_genre_button /\
     Py.after_underscore (callback_data b) = Py.Returns g) /\
  (forall b,
     In b (buttons_of (snd create_main_menu)
           ++ buttons_of create_error_keyboard ++ back_to_menu
           ++ menu_entry)%list ->
     Route.callback (callback_data b) = Some Route.handle_menu_button /\
     exists action,
       Py.after_underscore (callback_data b) = Py.Returns action /\
       known_action action = true).
Proof.
  split; [|split; [|split]].
  - intros movies reply_markup b Hkb Hin.
    destruct (create_movie_keyboard_shape _ _ _ Hkb)
      as (shown & entries & -> & Hrows).
    simpl in Hin. rewrite concat_app in Hin.
    apply in_app_or in Hin as [Hin|Hin].
    + destruct (movie_buttons _ _ _ _ Hrows Hin) as [tail ->]. reflexivity.
    + simpl in Hin. destruct Hin as [<-|[]]. reflexivity.
  - intros movies reply_markup b Hkb Hin.
    destruct (create_movie_keyboard_shape _ _ _ Hkb)
      as (shown & entries & -> & Hrows).
    simpl in Hin. rewrite concat_app in Hin.
    apply in_app_or in Hin as [Hin|Hin].
    + destruct (movie_buttons _ _ _ _ Hrows Hin) as [tail ->]. reflexivity.
    + simpl in Hin. destruct Hin as [<-|[]]. reflexivity.
  - intros g b [<-|[]]. split; reflexivity.
  - intros b Hin. simpl in Hin.
    repeat (destruct Hin as [<-|Hin];
            [split; [reflexivity|eexists; split; reflexivity]|]).
    destruct Hin.
Qed.

(** ** What the menu buttons do *)

Section Preserves.
Context {X : Type} (observe : world -> X).
Hypothesis args_unobserved :
  forall w l,
    observe (World (user_data w) l (favorites w) (calls w)) = observe w.



Lemma preserves_get_args : preserves observe get_args.
Proof. intros w. reflexivity. Qed.

Lemma preserves_set_args (l : list string) : preserves observe (set_args l).
Proof. intros w. apply args_unobserved. Qed.

Lemma preserves_favorites_of e u : preserves observe (favorites_of e u).
Proof. intros w. reflexivity. Qed.



Lemma preserves_tmdb_request e endpoint params :
  (forall url p w, observe (record (requests_get url p) w) = observe w) ->
  preserves observe (tmdb_request e endpoint params).
Proof.
  intros H w. change (tmdb_request e endpoint params w)
    with (run (tmdb_request e endpoint params) w).
  destruct (TMDB_API_KEY e) as [[|c key]|] eqn:Hkey.
  - rewrite (tmdb_request_without_key e endpoint params w)
      by (rewrite Hkey; reflexivity).
    reflexivity.
  - rewrite (tmdb_request_with_key e endpoint params w c key Hkey). apply H.
  - rewrite (tmdb_request_without_key e endpoint params w)
      by (rewrite Hkey; reflexivity).
    reflexivity.
Qed.

End Preserves.

Lemma replies_record (c : call) (w : world) :
  replies (record c w)
  = (replies w ++ if is_reply c then [c] else [])%list.
Proof.
  unfold replies, record. simpl. rewrite List.filter_app. simpl.
  destruct c; reflexivity.
Qed.


Lemma replies_after_request e endpoint params w :
  replies (snd (run (tmdb_request e endpoint params) w)) = replies w.
Proof.
  apply (preserves_tmdb_request replies).
  intros url p w'. rewrite replies_record. apply app_nil_r.
Qed.

Lemma known_action_false (action : string) :
  known_action action = false ->
  String.eqb action "search" = false /\ String.eqb action "actor" = false /\
  String.eqb action "favorite" = false /\
  String.eqb action "favorites" = false /\
  String.eqb action "trending" = false /\
  String.eqb action "genres" = false /\ String.eqb action "cinema" = false /\
  String.eqb action "help" = false /\ String.eqb action "menu" = false.
Proof.
  unfold known_action. simpl. rewrite !orb_false_iff. tauto.
Qed.

(** The handler once the token is parsed and the message deleted. *)
Lemma menu_button_no_reply e uid action w :
  known_action action = false ->
  run (handle_menu_button e uid ("menu_" ++ action)) w
  = (Py.Returns tt, record delete (record answer w)).
Proof.
  intros H. apply known_action_false in H
    as (H1 & H2 & H3 & H4 & H5 & H6 & H7 & H8 & H9).
  unfold run, handle_menu_button, bind, emit, lift. simpl.
  rewrite H1, H2, H3, H4, H5, H6, H7, H8, H9. reflexivity.
Qed.

Lemma trending_after_lookup e uid w :
  let looked :=
    run (tmdb_request e "trending/movie/day" None)
      (record delete (record answer w)) in
  run (handle_menu_button e uid "menu_trending") w
  = run (bind (lift (Py.rbind (fst looked) (fun data =>
                       Py.get data "results" (Py.VList []))))
           (fun movies =>
              if negb (Py.truthy movies)
              then emit (reply_text trending_failed
                           (Some create_error_keyboard) None)
              else bind (lift (create_movie_keyboard movies "detail"))
                     (fun reply_markup =>
                        emit (reply_text trending_films (Some reply_markup)
                                Markdown))))
      (snd looked).
Proof.
  cbv zeta. unfold run, handle_menu_button, bind, emit, lift. simpl.
  destruct (tmdb_request e "trending/movie/day" None _) as [[data|x] w3];
    reflexivity.
Qed.

Lemma favorites_button_run e uid w :
  exists message,
    run (handle_menu_button e uid "menu_favorites") w
    = (Py.Returns tt,
       record (reply_text message (Some create_error_keyboard)
                 (match Store.get_favorites_from_db (database_up e)
                          (favorites w) uid with
                  | [] => None
                  | _ => Markdown
                  end))
         (record delete (record answer w))).
Proof.
  unfold run, handle_menu_button, bind, emit, lift, favorites_of. simpl.
  destruct (Store.get_favorites_from_db _ _ _); eexists; reflexivity.
Qed.

(** X17: what a press on a "menu_" button brings.  For an action the
    handler has a branch for, a run that returns has sent exactly one
    reply; for any other action the press is acknowledged, the message is
    deleted, and nothing is sent.  The handler can raise only in the
    trending branch, and then no reply was sent either. *)
Theorem menu_button_replies_once e uid action w :
  let after := run (handle_menu_button e uid ("menu_" ++ action)) w in
  (action <> "trending" -> fst after = Py.Returns tt) /\
  (fst after = Py.Returns tt ->
   length (replies (snd after))
   = (length (replies w) + if known_action action then 1 else 0)%nat) /\
  (fst after <> Py.Returns tt -> replies (snd after) = replies w) /\
  (known_action action = false ->
   snd after = record delete (record answer w)).
Proof.
  intros after. subst after.
  destruct (known_action action) eqn:K.
  - unfold known_action in K. simpl in K.
    assert (forall P : string -> Prop,
              P "search" -> P "actor" -> P "favorite" -> P "favorites" ->
              P "trending" -> P "genres" -> P "cinema" -> P "help" ->
              P "menu" -> P action) as cases.
    { intros P.
      repeat (apply orb_true_iff in K as [K|K];
              [apply String.eqb_eq in K; subst action; tauto|]).
      discriminate. }
    clear K. pattern action. apply cases; clear cases.
    1-3, 6-9:
      (split; [reflexivity|]; split;
       [intros _; unfold replies, record; simpl;
        rewrite !List.filter_app; simpl;
        rewrite ?app_nil_r, ?length_app; reflexivity|];
       split; [intros H; exfalso; apply H; reflexivity|discriminate]).
    + destruct (favorites_button_run e uid w) as [message E].
      change ("menu_" ++ "favorites") with "menu_favorites". rewrite E.
      split; [reflexivity|]. split.
      * intros _. simpl. rewrite !replies_record. simpl.
        rewrite ?app_nil_r, ?length_app. reflexivity.
      * split; [intros H; exfalso; apply H; reflexivity|discriminate].
    + change ("menu_" ++ "trending") with "menu_trending".
      rewrite trending_after_lookup.
      set (w2 := record delete (record answer w)).
      pose proof (replies_after_request e "trending/movie/day" None w2) as R.
      assert (replies w2 = replies w) as R2
        by (unfold w2; rewrite !replies_record; simpl;
            rewrite ?app_nil_r; reflexivity).
      rewrite R2 in R. clear R2.
      destruct (run (tmdb_request e "trending/movie/day" None) w2)
        as [looked w3]. simpl in R |- *.
      split; [congruence|].
      unfold run, bind, lift, emit.
      destruct (Py.rbind looked _) as [movies|x]; simpl.
      * destruct (Py.truthy movies); simpl.
        -- destruct (create_movie_keyboard movies "detail") as [kb|x]; simpl.
           ++ split; [intros _; rewrite replies_record, length_app, R;
                      reflexivity|].
              split; [intros H; exfalso; apply H; reflexivity|discriminate].
           ++ split; [discriminate|]. split; [intros _; exact R|discriminate].
        -- split; [intros _; rewrite replies_record, length_app, R;
                   reflexivity|].
           split; [intros H; exfalso; apply H; reflexivity|discriminate].
      * split; [discriminate|]. split; [intros _; exact R|discriminate].
  - rewrite (menu_button_no_reply e uid action w K). simpl.
    split; [reflexivity|]. split.
    + intros _. rewrite !replies_record. simpl.
      rewrite ?app_nil_r, Nat.add_0_r. reflexivity.
    + split; [intros H; exfalso; apply H; reflexivity|reflexivity].
Qed.

Lemma is_prompt_false (action : string) :
  is_prompt action = false ->
  String.eqb action "search" = false /\ String.eqb action "actor" = false /\
  String.eqb action "favorite" = false.
Proof. unfold is_prompt. simpl. rewrite !orb_false_iff. tauto. Qed.

Lemma menu_button_keeps_user_data e uid action :
  is_prompt action = false ->
  preserves user_data (handle_menu_button e uid ("menu_" ++ action)).
Proof.
  intros Hp w.
  change (user_data
            (snd (run (handle_menu_button e uid ("menu_" ++ action)) w))
          = user_data w).
  destruct (known_action action) eqn:K.
  - apply is_prompt_false in Hp as (H1 & H2 & H3).
    unfold known_action in K. simpl in K. rewrite H1, H2, H3 in K.
    simpl in K.
    repeat (apply orb_true_iff in K as [K|K];
            [apply String.eqb_eq in K; subst action|]);
      try discriminate; try reflexivity.
    + destruct (favorites_button_run e uid w) as [message E].
      change ("menu_" ++ "favorites") with "menu_favorites". rewrite E.
      reflexivity.
    + change ("menu_" ++ "trending") with "menu_trending".
      rewrite trending_after_lookup. cbv zeta. unfold run.
      match goal with
      | |- user_data (snd (?c ?w1)) = _ =>
          assert (keeps_user_data c) as Hk
      end.
      { repeat keeps_step. }
      rewrite Hk.
      rewrite (keeps_tmdb_request e "trending/movie/day" None).
      reflexivity.
  - rewrite (menu_button_no_reply e uid action w K). reflexivity.
Qed.

Lemma genre_button_keeps_user_data e data :
  preserves user_data (handle_genre_button e data).
Proof.
  change (keeps_user_data (handle_genre_button e data)).
  unfold handle_genre_button. repeat keeps_step.
Qed.

Lemma location_keeps_user_data lat lon :
  preserves user_data (handle_location lat lon).
Proof.
  change (keeps_user_data (handle_location lat lon)).
  unfold handle_location. repeat keeps_step.
Qed.

Lemma pending_depends_on_user_data (user : Z) (w w' : world) :
  user_data w' = user_data w -> pending user w' = pending user w.
Proof. intros H. unfold pending, the_user_data. rewrite H. reflexivity. Qed.

(** X18: only the three prompts write [user_data].  A press on any other
    menu button, a genre button, a location share, [/start], [/favorites]
    and [/favorite] leave every user's data as it was, so a pending intent
    survives them: the text message that follows such a detour is still
    dispatched on the intent that was pending before it. *)
Theorem only_prompts_write_user_data e uid :
  (forall action,
     is_prompt action = false ->
     preserves user_data (handle_menu_button e uid ("menu_" ++ action))) /\
  (forall data, preserves user_data (handle_genre_button e data)) /\
  (forall lat lon, preserves user_data (handle_location lat lon)) /\
  preserves user_data start /\
  preserves user_data (view_favorites e uid) /\
  preserves user_data (add_favorite_by_title e) /\
  (forall action text w,
     is_prompt action = false ->
     let detour :=
       snd (run (handle_menu_button e uid ("menu_" ++ action)) w) in
     run (handle_text_message e uid text) detour
     = run (state_machine e (pending uid w) text) (cleared uid detour)).
Proof.
  split; [exact (menu_button_keeps_user_data e uid)|].
  split; [exact (genre_button_keeps_user_data e)|].
  split; [exact location_keeps_user_data|].
  split; [intros w; reflexivity|].
  split.
  { change (keeps_user_data (view_favorites e uid)).
    unfold view_favorites. repeat keeps_step. }
  split; [exact (keeps_add_favorite_by_title e)|].
  intros action text w Hp detour.
  rewrite handle_text_message_pops. f_equal. f_equal.
  apply pending_depends_on_user_data.
  exact (menu_button_keeps_user_data e uid action Hp w).
Qed.

(** X19: a prompt followed by a text message is the lookup the prompt
    announced.  Pressing "menu_search", "menu_actor" or "menu_favorite"
    sends the prompt and nothing else, whatever intent was pending before
    (the last prompt wins), and the next text message of that user runs the
    title search, the actor search, or the add-favorite search on its text,
    in a world where the intent is cleared. *)
Theorem prompt_then_text e uid text w :
  let asked action :=
    snd (run (handle_menu_button e uid ("menu_" ++ action)) w) in
  (forall action,
     is_prompt action = true ->
     calls (asked action)
     = (calls w ++ [answer; delete;
                    reply_text (prompt_for action) None None])%list /\
     pending uid (asked action) = Py.VStr action) /\
  run (handle_text_message e uid text) (asked "search")
  = run (call_search_movie e text) (cleared uid (asked "search")) /\
  run (handle_text_message e uid text) (asked "actor")
  = run (call_search_actor e text) (cleared uid (asked "actor")) /\
  run (handle_text_message e uid text) (asked "favorite")
  = run (call_add_favorite e text) (cleared uid (asked "favorite")).
Proof.
  intros asked.
  pose proof (menu_button_sets_intent e uid w) as (Hs & Ha & Hf).
  split; [|split; [|split]].
  - intros action Hp. unfold is_prompt in Hp. simpl in Hp.
    repeat (apply orb_true_iff in Hp as [Hp|Hp];
            [apply String.eqb_eq in Hp; subst action|]);
      try discriminate.
    + split; [|exact Hs]. unfold asked. simpl.
      rewrite <- !app_assoc. reflexivity.
    + split; [|exact Ha]. unfold asked. simpl.
      rewrite <- !app_assoc. reflexivity.
    + split; [|exact Hf]. unfold asked. simpl.
      rewrite <- !app_assoc. reflexivity.
  - rewrite handle_text_message_pops. unfold asked.
    change ("menu_" ++ "search") with "menu_search". rewrite Hs. reflexivity.
  - rewrite handle_text_message_pops. unfold asked.
    change ("menu_" ++ "actor") with "menu_actor". rewrite Ha. reflexivity.
  - rewrite handle_text_message_pops. unfold asked.
    change ("menu_" ++ "favorite") with "menu_favorite". rewrite Hf.
    reflexivity.
Qed.

(** ** The lookups behind the text messages *)

Lemma run_after_set_args {A} (l : list string) (c : M A) (w : world) :
  run (bind (set_args l) (fun _ => c)) w
  = run c (World (user_data w) l (favorites w) (calls w)).
Proof. reflexivity. Qed.

Lemma run_after_get_args {A} (k : list string -> M A) (w : world) :
  run (bind get_args k) w = run (k (args w)) w.
Proof. reflexivity. Qed.





(** ** A catalog that fails *)

(** A failed request hands the empty object on and leaves the replies and
    the arguments as they were. *)
Lemma failed_request e endpoint params w :
  request_fails e endpoint params ->
  exists w',
    run (tmdb_request e endpoint params) w = (Py.Returns (Py.VDict []), w') /\
    replies w' = replies w /\ args w' = args w.
Proof.
  intros Hfail.
  pose proof (tmdb_request_failed e endpoint params w Hfail) as Hfst.
  pose proof (replies_after_request e endpoint params w) as Hr.
  assert (args (snd (run (tmdb_request e endpoint params) w)) = args w)
    as Ha.
  { apply (preserves_tmdb_request args). reflexivity. }
  destruct (run (tmdb_request e endpoint params) w) as [r w'].
  simpl in *. subst r. exists w'. auto.
Qed.

Lemma failed_request_then e endpoint params (k : Py.value -> M unit) w :
  request_fails e endpoint params ->
  exists w',
    run (bind (tmdb_request e endpoint params) k) w
    = run (k (Py.VDict [])) w' /\
    replies w' = replies w.
Proof.
  intros Hfail.
  destruct (failed_request e endpoint params w Hfail) as (w' & E & Hr & _).
  exists w'. split; [|exact Hr].
  unfold run, bind in *. rewrite E. reflexivity.
Qed.

(** The genre handler once the token is parsed and mapped to an id. *)
Lemma genre_button_known e genre_name genre_id w :
  Py.lookup genre_name (GENRES e) = Some genre_id ->
  Py.truthy genre_id = true ->
  run (handle_genre_button e ("genre_" ++ genre_name)) w
  = run (bind (tmdb_request e "discover/movie"
                 (Some [("with_genres", genre_id);
                        ("sort_by", Py.VStr "popularity.desc")]))
           (fun data =>
              bind (lift (Py.get data "results" (Py.VList [])))
                (fun movies =>
                   if negb (Py.truthy movies)
                   then emit (reply_text (genre_no_results genre_name)
                                (Some create_error_keyboard) None)
                   else bind (lift (create_movie_keyboard movies "detail"))
                          (fun reply_markup =>
                             emit (reply_text (genre_films genre_name)
                                     (Some reply_markup) Markdown)))))
      (record delete (record answer w)).
Proof.
  intros Hid Htruthy.
  unfold run, handle_genre_button, bind, emit, lift. simpl.
  rewrite Hid, Htruthy. reflexivity.
Qed.

(** X21: a failed catalog request ends every lookup in its not-found reply.
    When the request of a title search, an actor search, the trending
    button, a genre button of a known genre or the [/favorite] command
    fails (no key, no response, or an error status), the handler returns
    normally and has sent one reply: the not-found text of that path with
    the single return-to-menu button. *)
Theorem failed_lookup_reports_not_found e uid w :
  let not_found (c : M unit) (text : string) :=
    fst (run c w) = Py.Returns tt /\
    replies (snd (run c w))
    = (replies w
       ++ [reply_text text (Some create_error_keyboard) None])%list in
  (forall query,
     request_fails e "search/movie" (Some [("query", Py.VStr query)]) ->
     not_found (call_search_movie e query) (movie_not_found query)) /\
  (forall query,
     request_fails e "search/person" (Some [("query", Py.VStr query)]) ->
     not_found (call_search_actor e query) (actor_not_found query)) /\
  (request_fails e "trending/movie/day" None ->
   not_found (handle_menu_button e uid "menu_trending") trending_failed) /\
  (forall genre_name genre_id,
     Py.lookup genre_name (GENRES e) = Some genre_id ->
     Py.truthy genre_id = true ->
     request_fails e "discover/movie"
       (Some [("with_genres", genre_id);
              ("sort_by", Py.VStr "popularity.desc")]) ->
     not_found (handle_genre_button e ("genre_" ++ genre_name))
       (genre_no_results genre_name)) /\
  (let query := Py.join " " (args w) in
   query <> "" ->
   request_fails e "search/movie" (Some [("query", Py.VStr query)]) ->
   not_found (add_favorite_by_title e) (movie_not_found query)).
Proof.
  intros not_found. subst not_found. cbv beta.
  split; [|split; [|split; [|split]]].
  - intros query Hfail. unfold call_search_movie.
    rewrite run_after_set_args.
    destruct (failed_request_then e _ _
                (fun data =>
                   bind (lift (Py.get data "results" (Py.VList [])))
                     (fun movies =>
                        if negb (Py.truthy movies)
                        then emit (reply_text (movie_not_found query)
                                     (Some create_error_keyboard) None)
                        else bind (lift (create_movie_keyboard movies
                                           "detail"))
                               (fun reply_markup =>
                                  emit (reply_text search_results
                                          (Some reply_markup) None))))
                (World (user_data w) (Py.split query) (favorites w)
                   (calls w)) Hfail) as (w' & E & Hr).
    unfold movie_not_found, search_results in E. rewrite E.
    split; [reflexivity|].
    unfold run, bind, lift, emit. simpl. rewrite replies_record, Hr.
    reflexivity.
  - intros query Hfail. unfold call_search_actor.
    rewrite run_after_set_args.
    match goal with
    | |- context [bind (tmdb_request e ?ep ?p) ?k] =>
        destruct (failed_request_then e ep p k
                    (World (user_data w) (Py.split query) (favorites w)
                       (calls w)) Hfail) as (w' & E & Hr)
    end.
    rewrite E. split; [reflexivity|].
    unfold run, bind, lift, emit, ret. simpl. rewrite replies_record, Hr.
    reflexivity.
  - intros Hfail. rewrite trending_after_lookup. cbv zeta.
    destruct (failed_request e "trending/movie/day" None
                (record delete (record answer w)) Hfail)
      as (w' & E & Hr & _).
    rewrite E. split; [reflexivity|].
    unfold run, bind, lift, emit. simpl. rewrite replies_record, Hr.
    rewrite !replies_record. simpl. rewrite !app_nil_r. reflexivity.
  - intros genre_name genre_id Hid Htruthy Hfail.
    rewrite (genre_button_known e genre_name genre_id w Hid Htruthy).
    match goal with
    | |- context [run (bind (tmdb_request e ?ep ?p) ?k) ?w1] =>
        destruct (failed_request_then e ep p k w1 Hfail) as (w' & E & Hr)
    end.
    rewrite E. split; [reflexivity|].
    unfold run, bind, lift, emit. simpl. rewrite replies_record, Hr.
    rewrite !replies_record. simpl. rewrite !app_nil_r. reflexivity.
  - intros query Hq Hfail. unfold add_favorite_by_title.
    rewrite run_after_get_args. cbv zeta. fold query.
    destruct (String.eqb_spec query "") as [E|_]; [contradiction|].
    match goal with
    | |- context [bind (tmdb_request e ?ep ?p) ?k] =>
        destruct (failed_request_then e ep p k w Hfail) as (w' & E & Hr)
    end.
    rewrite E. split; [reflexivity|].
    unfold run, bind, lift, emit. simpl. rewrite replies_record, Hr.
    reflexivity.
Qed.

(** ** The credits an actor search lists *)

Lemma movies_only_filter (credits : list Py.value) :
  movies_only credits
  = if forallb is_object credits
    then Py.Returns (List.filter is_movie_credit credits)
    else Py.Raises Py.AttributeError.
Proof.
  induction credits as [|credit credits IH]; [reflexivity|].
  destruct credit as [| | | | | |d]; try reflexivity.
  cbn [movies_only forallb is_object andb Py.get Py.rbind List.filter
       is_movie_credit].
  rewrite IH. destruct (forallb is_object credits); cbn [Py.rbind].
  - destruct (Py.lookup "media_type" d) as [media_type|]; [|reflexivity].
    destruct (Py.eq_str media_type "movie"); reflexivity.
  - reflexivity.
Qed.

Lemma actor_listing_run e query_text w
    (data actors top name : Py.value) (credits : list Py.value) :
  let looked :=
    run (tmdb_request e "search/person"
           (Some [("query", Py.VStr query_text)]))
      (snd (run (set_args (Py.split query_text)) w)) in
  fst looked = Py.Returns data ->
  Py.get data "results" (Py.VList []) = Py.Returns actors ->
  Py.truthy actors = true ->
  Py.first actors = Py.Returns top ->
  Py.getitem top "known_for" = Py.Returns (Py.VList credits) ->
  credits <> [] ->
  Py.getitem top "name" = Py.Returns name ->
  run (call_search_actor e query_text) w
  = run (bind (lift (movies_only credits)) (fun known_for =>
         bind (lift (create_movie_keyboard (Py.VList known_for) "detail"))
           (fun reply_markup =>
              emit (reply_text (actor_films name) (Some reply_markup)
                      Markdown))))
      (snd looked).
Proof.
  intros looked Hdata Hactors T Htop Hknown Hsome Hname.
  rewrite (call_search_actor_after_lookup e query_text w data Hdata).
  fold looked.
  unfold run, bind, lift, ret. rewrite Hactors, T. simpl.
  rewrite Htop. simpl.
  destruct top as [| | | | | |d]; try discriminate.
  unfold Py.getitem in Hknown, Hname. unfold Py.get.
  destruct (Py.lookup "known_for" d) as [known|]; [|discriminate].
  injection Hknown as ->.
  destruct credits as [|credit credits]; [congruence|]. simpl.
  unfold Py.getitem.
  destruct (Py.lookup "name" d) as [name'|]; [|discriminate].
  injection Hname as ->. reflexivity.
Qed.

(** X22: an actor search lists the movie credits of the first match, and
    only those.  When the first person found has a name and a non-empty
    list of known-for credits, the reply is headed by that name and its
    keyboard is the movie keyboard of the credits whose media type is
    "movie", in their order; a credit that is no object ends the handler
    with an [AttributeError] and no reply. *)
Theorem actor_listing_keeps_movie_credits e query_text w
    (data actors top name : Py.value) (credits : list Py.value) :
  let looked :=
    run (tmdb_request e "search/person"
           (Some [("query", Py.VStr query_text)]))
      (snd (run (set_args (Py.split query_text)) w)) in
  fst looked = Py.Returns data ->
  Py.get data "results" (Py.VList []) = Py.Returns actors ->
  Py.truthy actors = true ->
  Py.first actors = Py.Returns top ->
  Py.getitem top "known_for" = Py.Returns (Py.VList credits) ->
  credits <> [] ->
  Py.getitem top "name" = Py.Returns name ->
  run (call_search_actor e query_text) w
  = if forallb is_object credits
    then
      match create_movie_keyboard
              (Py.VList (List.filter is_movie_credit credits)) "detail" with
      | Py.Returns reply_markup =>
          (Py.Returns tt,
           record (reply_text (actor_films name) (Some reply_markup)
                     Markdown) (snd looked))
      | Py.Raises x => (Py.Raises x, snd looked)
      end
    else (Py.Raises Py.AttributeError, snd looked).
Proof.
  intros looked Hdata Hactors T Htop Hknown Hsome Hname.
  rewrite (actor_listing_run e query_text w data actors top name credits
             Hdata Hactors T Htop Hknown Hsome Hname).
  fold looked. rewrite movies_only_filter.
  unfold run, bind, lift, emit.
  destruct (forallb is_object credits); [|reflexivity].
  destruct (create_movie_keyboard _ _); reflexivity.
Qed.

(** ** The two listings of the favorites *)

Lemma listing_lines (t : string) (titles : list string) (heading : string) :
  fold_left (fun message movie => message ++ ("- " ++ movie ++ "
")) (t :: titles) heading
  = (heading ++ Py.join "
" (map (fun movie => "- " ++ movie) (t :: titles))) ++ "
".
Proof.
  revert t heading. induction titles as [|t' titles IH]; intros t heading.
  - cbn [fold_left map Py.join String.concat].
    rewrite !append_assoc. reflexivity.
  - change (fold_left _ (t :: t' :: titles) heading)
      with (fold_left (fun message movie => message ++ ("- " ++ movie ++ "
")) (t' :: titles) (heading ++ ("- " ++ t ++ "
"))).
    rewrite IH. unfold Py.join. cbn [map String.concat].
    rewrite !append_assoc. reflexivity.
Qed.

(** X23: the [/favorites] command and the favorites button list the same
    titles, those of [get_favorites_from_db] for the user, as one "- title"
    line each under the same heading: the text of the command is the text
    of the button followed by a newline.  With no favorite (or no
    connection) each sends its own "no favorites yet" text, without
    Markdown. *)
Theorem favorites_command_and_button e uid w :
  let titles :=
    Store.get_favorites_from_db (database_up e) (favorites w) uid in
  let pressed := record delete (record answer w) in
  (titles = [] ->
   run (view_favorites e uid) w
   = (Py.Returns tt,
      record (reply_text no_favorites_command (Some create_error_keyboard)
                None) w) /\
   run (handle_menu_button e uid "menu_favorites") w
   = (Py.Returns tt,
      record (reply_text no_favorites_yet (Some create_error_keyboard)
                None) pressed)) /\
  (titles <> [] ->
   let message :=
     favorites_heading ++ Py.join "
" (map (fun movie => "- " ++ movie) titles) in
   run (handle_menu_button e uid "menu_favorites") w
   = (Py.Returns tt,
      record (reply_text message (Some create_error_keyboard) Markdown)
        pressed) /\
   run (view_favorites e uid) w
   = (Py.Returns tt,
      record (reply_text (message ++ "
") (Some create_error_keyboard) Markdown) w)).
Proof.
  intros titles pressed. split.
  - intros Hnone. split.
    + unfold run, view_favorites, bind, favorites_of. cbn [fst snd].
      fold titles. rewrite Hnone. reflexivity.
    + unfold run, handle_menu_button, bind, emit, lift, favorites_of.
      simpl. fold titles. rewrite Hnone. reflexivity.
  - intros Hsome message. split.
    + unfold run, handle_menu_button, bind, emit, lift, favorites_of.
      simpl. fold titles. subst message.
      destruct titles as [|t titles']; [congruence|]. reflexivity.
    + unfold run, view_favorites, bind, favorites_of. cbn [fst snd].
      fold titles. subst message.
      destruct titles as [|t titles']; [congruence|].
      rewrite listing_lines. reflexivity.
Qed.

(** * The further properties at sample inputs *)


Lemma listing_ignores_row_order_witness :
  [Store.Row 1 2 "Zeta"; Store.Row 1 3 "Alpha"]
  ≡ₚ [Store.Row 1 3 "Alpha"; Store.Row 1 2 "Zeta"] /\
  Store.get_favorites_from_db true
    [Store.Row 1 2 "Zeta"; Store.Row 1 3 "Alpha"] 1
  = Store.get_favorites_from_db true
      [Store.Row 1 3 "Alpha"; Store.Row 1 2 "Zeta"] 1.
Proof.
  assert ([Store.Row 1 2 "Zeta"; Store.Row 1 3 "Alpha"]
          ≡ₚ [Store.Row 1 3 "Alpha"; Store.Row 1 2 "Zeta"]) as H
    by apply Permutation_swap.
  split; [exact H|].
  exact (listing_ignores_row_order true _ _ 1 H).
Defined.

Lemma tmdb_request_passes_the_answer_witness :
  TMDB_API_KEY (answering [] genre_list) = Some "key" /\
  ~ (400 <= 200 < 600)%Z /\
  run (tmdb_request (answering [] genre_list) "genre/movie/list" None)
    empty_world
  = (Py.Returns genre_list,
     record (requests_get "https://api.themoviedb.org/3/genre/movie/list"
               [("api_key", Py.VStr "key"); ("language", Py.VStr "en-US")])
       empty_world).
Proof.
  assert (~ (400 <= 200 < 600)%Z) as H by lia.
  split; [reflexivity|]. split; [exact H|].
  apply (tmdb_request_passes_the_answer (answering [] genre_list)
           "genre/movie/list" None empty_world "key" 200 (Some genre_list));
    [reflexivity|discriminate|reflexivity|exact H].
Defined.

Lemma base_params_merge_witness :
  NoDup (Py.keys [("query", Py.VStr "Inception");
                  ("language", Py.VStr "id-ID")]) /\
  Py.lookup "language"
    (base_params "key" (Some [("query", Py.VStr "Inception");
                              ("language", Py.VStr "id-ID")]))
  = Some (Py.VStr "id-ID") /\
  Py.lookup "api_key"
    (base_params "key" (Some [("query", Py.VStr "Inception");
                              ("language", Py.VStr "id-ID")]))
  = Some (Py.VStr "key").
Proof.
  assert (NoDup (Py.keys [("query", Py.VStr "Inception");
                          ("language", Py.VStr "id-ID")])) as H.
  { simpl. apply NoDup_cons. split; [|apply NoDup_singleton].
    intros Hin. apply list_elem_of_singleton in Hin. discriminate. }
  split; [exact H|]. split.
  - exact (base_params_merge "key" _ "language" H).
  - exact (base_params_merge "key" _ "api_key" H).
Defined.

Lemma load_genres_without_a_list_witness :
  request_fails unreachable "genre/movie/list" None /\
  fst (run (load_genres unreachable) empty_world) = Py.Returns [].
Proof.
  assert (request_fails unreachable "genre/movie/list" None) as H
    by (apply (no_response _ _ _ "key" Py.ConnectionError); reflexivity).
  split; [exact H|].
  exact (proj1 (load_genres_without_a_list unreachable empty_world) H).
Defined.


Lemma main_needs_every_setting_witness :
  is_set (Some "") = false /\
  run (main (Some "") (Some "postgres://localhost/bot")
         (answering [] genre_list) None) empty_world
  = (Py.Returns None, empty_world).
Proof.
  split; [reflexivity|].
  apply main_needs_every_setting. left. reflexivity.
Defined.

Lemma started_process_is_configured_witness :
  let e' :=
    Env (Some "key") [("action", Py.VInt 28); ("comedy", Py.VInt 35)]
      (catalog (answering [] genre_list)) true in
  fst (run (main (Some "token") (Some "postgres://localhost/bot")
              (answering [] genre_list) None) empty_world)
  = Py.Returns (Some (e', Some [])) /\
  NoDup (Py.keys (GENRES e')) /\
  database_up e' = true.
Proof.
  intros e'.
  assert (fst (run (main (Some "token") (Some "postgres://localhost/bot")
                      (answering [] genre_list) None) empty_world)
          = Py.Returns (Some (e', Some []))) as H by reflexivity.
  split; [exact H|].
  destruct (started_process_is_configured _ _ _ _ _ _ _ H)
    as (_ & Hnd & _ & Hup & _).
  split; [exact Hnd|exact Hup].
Defined.

Lemma start_without_catalog_has_no_genres_witness :
  forallb is_set [Some "token"; TMDB_API_KEY (refusing 503);
                  Some "postgres://localhost/bot"] = true /\
  request_fails (refusing 503) "genre/movie/list" None /\
  exists e' db',
    fst (run (main (Some "token") (Some "postgres://localhost/bot")
                (refusing 503) None) empty_world)
    = Py.Returns (Some (e', db')) /\
    GENRES e' = [].
Proof.
  assert (request_fails (refusing 503) "genre/movie/list" None) as H
    by (apply (error_status _ _ _ "key" 503 None); [reflexivity..|lia]).
  split; [reflexivity|]. split; [exact H|].
  destruct (start_without_catalog_has_no_genres (Some "token")
              (Some "postgres://localhost/bot") (refusing 503) None
              empty_world eq_refl H) as (e' & db' & Hrun & Hgenres & _).
  exists e', db'. split; [exact Hrun|exact Hgenres].
Defined.


Lemma keyboard_with_a_malformed_entry_witness :
  (length [summary 27205 "Inception" "2010-07-15"] < 5)%nat /\
  Py.lookup "id" [("title", Py.VStr "Untitled")] = None /\
  create_movie_keyboard
    (Py.VList [summary 27205 "Inception" "2010-07-15";
               Py.VDict [("title", Py.VStr "Untitled")];
               summary 77 "Memento" "2000-10-11"]) "detail"
  = Py.Raises (Py.KeyError "id").
Proof.
  assert (length [summary 27205 "Inception" "2010-07-15"] < 5)%nat as H
    by (simpl; lia).
  split; [exact H|]. split; [reflexivity|].
  apply (keyboard_with_a_malformed_entry
           [summary 27205 "Inception" "2010-07-15"]
           [summary 77 "Memento" "2000-10-11"]
           [("title", Py.VStr "Untitled")] "detail" H).
  - repeat constructor.
  - left. reflexivity.
Defined.

Lemma every_button_is_routed_witness :
  create_movie_keyboard (Py.VList six_movies) "save"
  = Py.Returns
      (InlineKeyboardMarkup
         [[InlineKeyboardButton "Inception (2010)" "save_27205"];
          [InlineKeyboardButton "Interstellar (2014)" "save_157336"];
          [InlineKeyboardButton "The Dark Knight (2008)" "save_155"];
          [InlineKeyboardButton "The Prestige (2006)" "save_1124"];
          [InlineKeyboardButton "Memento (2000)" "save_77"];
          menu_entry]) /\
  Route.callback "save_157336" = Some Route.save_favorite_movie /\
  Route.callback "genre_comedy" = Some Route.handle_genre_button.
Proof.
  assert (create_movie_keyboard (Py.VList six_movies) "save"
          = Py.Returns
              (InlineKeyboardMarkup
                 [[InlineKeyboardButton "Inception (2010)" "save_27205"];
                  [InlineKeyboardButton "Interstellar (2014)" "save_157336"];
                  [InlineKeyboardButton "The Dark Knight (2008)" "save_155"];
                  [InlineKeyboardButton "The Prestige (2006)" "save_1124"];
                  [InlineKeyboardButton "Memento (2000)" "save_77"];
                  menu_entry])) as H by (vm_compute; reflexivity).
  destruct every_button_is_routed as (_ & Hsave & Hgenre & _).
  split; [exact H|]. split.
  - apply (Hsave _ _
             (InlineKeyboardButton "Interstellar (2014)" "save_157336") H).
    simpl. right. left. reflexivity.
  - apply (Hgenre "comedy" (InlineKeyboardButton "Comedy" "genre_comedy")).
    left. reflexivity.
Defined.

Lemma menu_button_replies_once_witness :
  "help" <> "trending" /\
  known_action "settings" = false /\
  fst (run (handle_menu_button unconfigured 1 "menu_help") empty_world)
  = Py.Returns tt /\
  length (replies (snd (run (handle_menu_button unconfigured 1 "menu_help")
                          empty_world))) = 1%nat /\
  snd (run (handle_menu_button unconfigured 1 "menu_settings") empty_world)
  = record delete (record answer empty_world).
Proof.
  assert ("help" <> "trending") as H by discriminate.
  split; [exact H|]. split; [reflexivity|].
  destruct (menu_button_replies_once unconfigured 1 "help" empty_world)
    as (Hreturns & Hone & _).
  split; [exact (Hreturns H)|]. split; [exact (Hone (Hreturns H))|].
  exact (proj2 (proj2 (proj2
           (menu_button_replies_once unconfigured 1 "settings" empty_world)))
           eq_refl).
Defined.

Lemma only_prompts_write_user_data_witness :
  let asked :=
    snd (run (handle_menu_button unconfigured 1 "menu_search") empty_world) in
  let detour := snd (run (handle_menu_button unconfigured 1 "menu_help") asked) in
  is_prompt "help" = false /\
  pending 1 asked = Py.VStr "search" /\
  user_data detour = user_data asked /\
  run (handle_text_message unconfigured 1 "Inception") detour
  = run (call_search_movie unconfigured "Inception") (cleared 1 detour).
Proof.
  intros asked detour.
  assert (pending 1 asked = Py.VStr "search") as Hp
    by (vm_compute; reflexivity).
  split; [reflexivity|]. split; [exact Hp|].
  destruct (only_prompts_write_user_data unconfigured 1)
    as (Hkeeps & _ & _ & _ & _ & _ & Hnext).
  split; [exact (Hkeeps "help" eq_refl asked)|].
  unfold detour.
  change "menu_help" with ("menu_" ++ "help").
  rewrite (Hnext "help" "Inception" asked eq_refl), Hp. reflexivity.
Defined.

Lemma prompt_then_text_witness :
  is_prompt "actor" = true /\
  pending 1
    (snd (run (handle_menu_button unconfigured 1 "menu_actor") empty_world))
  = Py.VStr "actor" /\
  calls
    (snd (run (handle_menu_button unconfigured 1 "menu_actor") empty_world))
  = [answer; delete; reply_text (prompt_for "actor") None None].
Proof.
  split; [reflexivity|].
  destruct (proj1 (prompt_then_text unconfigured 1 "" empty_world)
              "actor" eq_refl) as (Hcalls & Hpending).
  split; [exact Hpending|exact Hcalls].
Defined.


Lemma failed_lookup_reports_not_found_witness :
  let e := unreachable_with twelve_genres in
  request_fails e "trending/movie/day" None /\
  request_fails e "discover/movie"
    (Some [("with_genres", Py.VInt 35);
           ("sort_by", Py.VStr "popularity.desc")]) /\
  replies (snd (run (handle_menu_button e 1 "menu_trending") empty_world))
  = [reply_text trending_failed (Some create_error_keyboard) None] /\
  replies (snd (run (handle_genre_button e "genre_comedy") empty_world))
  = [reply_text (genre_no_results "comedy") (Some create_error_keyboard)
       None].
Proof.
  intros e.
  assert (request_fails e "trending/movie/day" None) as H1
    by (apply (no_response _ _ _ "key" Py.ConnectionError); reflexivity).
  assert (request_fails e "discover/movie"
            (Some [("with_genres", Py.VInt 35);
                   ("sort_by", Py.VStr "popularity.desc")])) as H2
    by (apply (no_response _ _ _ "key" Py.ConnectionError); reflexivity).
  split; [exact H1|]. split; [exact H2|].
  destruct (failed_lookup_reports_not_found e 1 empty_world)
    as (_ & _ & Htrending & Hgenre & _).
  split.
  - exact (proj2 (Htrending H1)).
  - exact (proj2 (Hgenre "comedy" (Py.VInt 35) eq_refl eq_refl H2)).
Defined.

Lemma actor_listing_keeps_movie_credits_witness :
  let e :=
    answering [] (Py.VDict [("results", Py.VList [film_and_tv_person])]) in
  Py.getitem film_and_tv_person "name" = Py.Returns (Py.VStr "Keanu Reeves") /\
  fst (run (call_search_actor e "keanu") empty_world) = Py.Returns tt /\
  replies (snd (run (call_search_actor e "keanu") empty_world))
  = [reply_text (actor_films (Py.VStr "Keanu Reeves"))
       (Some (InlineKeyboardMarkup
                [[InlineKeyboardButton "The Matrix (1999)" "detail_603"];
                 menu_entry])) Markdown].
Proof.
  intros e.
  split; [reflexivity|].
  pose proof (actor_listing_keeps_movie_credits e "keanu" empty_world
                (Py.VDict [("results", Py.VList [film_and_tv_person])])
                (Py.VList [film_and_tv_person]) film_and_tv_person
                (Py.VStr "Keanu Reeves")
                [Py.VDict [("media_type", Py.VStr "movie");
                           ("id", Py.VInt 603);
                           ("title", Py.VStr "The Matrix");
                           ("release_date", Py.VStr "1999-03-30")];
                 Py.VDict [("media_type", Py.VStr "tv");
                           ("id", Py.VInt 61889);
                           ("name", Py.VStr "Swedish Dicks")]]
                eq_refl eq_refl eq_refl eq_refl eq_refl
                ltac:(discriminate) eq_refl) as H.
  rewrite H. split; vm_compute; reflexivity.
Defined.

Lemma favorites_command_and_button_witness :
  Store.get_favorites_from_db (database_up unconfigured)
    (favorites two_favorites) 1 = ["Alpha"; "Zeta"] /\
  run (view_favorites unconfigured 1) two_favorites
  = (Py.Returns tt,
     record (reply_text (favorites_heading ++ "- Alpha
- Zeta
") (Some create_error_keyboard) Markdown) two_favorites).
Proof.
  assert (Store.get_favorites_from_db (database_up unconfigured)
            (favorites two_favorites) 1 = ["Alpha"; "Zeta"]) as H
    by (vm_compute; reflexivity).
  split; [exact H|].
  destruct (favorites_command_and_button unconfigured 1 two_favorites)
    as (_ & Hlisted).
  cbv zeta in Hlisted. rewrite H in Hlisted.
  exact (proj2 (Hlisted ltac:(discriminate))).
Defined.
